(** * Kurma: container manager admission, registry and helper routines

    A shallow embedding of the container manager ([Manager.Validate],
    [Manager.Create], [Manager.remove], [Manager.SwapDirectory],
    [Manager.getVolumePath], [NewManager]) and of the network helper
    [random], followed by the properties established about them.

    Conventions of the embedding:
    - a Go [error] is the message it carries; the nil error is [None];
    - a Go function returning [(T, error)] returns a [result T];
    - a method that mutates its receiver takes the receiver and returns the
      new one; calls into the host (cgroups, file system) thread a [World];
    - mutexes are not represented: every operation is taken as one step;
    - what the imported packages provide is collected in the classes
      [Handles] (opaque types) and [Imports] (operations and constants). *)

From Stdlib Require Import ZArith.
From Stdlib.Strings Require Ascii String Byte.
From stdpp Require Import base gmap strings list.

Local Open Scope Z_scope.

(** ** Errors and results *)

Definition error := string.

Inductive result (A : Type) : Type :=
| Ok (a : A)
| Err (e : error).
Arguments Ok {A} a.
Arguments Err {A} e.

(** ** Schema types (appc/spec/schema and kurma/schema) *)

Definition ACIdentifier := string.
Definition ACName := string.
Definition Annotations := list (ACIdentifier * string).
Definition Labels := list (ACIdentifier * string).

(** A namespace setting, as the accessors of the namespaces isolator return
    it. *)
Definition LinuxNamespaceValue := string.

Module LinuxNamespaces.
(** The [*kschema.LinuxNamespaces] isolator value, seen through its five
    accessor methods. *)
Record t := {
  IPC : LinuxNamespaceValue;
  Net : LinuxNamespaceValue;
  PID : LinuxNamespaceValue;
  User : LinuxNamespaceValue;
  UTS : LinuxNamespaceValue
}.
End LinuxNamespaces.

(** What [iso.Value()] can hold: the namespaces isolator of kurma, or a
    value of any other dynamic type. *)
Inductive IsolatorValue :=
| LinuxNamespacesValue (niso : LinuxNamespaces.t)
| OtherIsolatorValue (raw : string).

Module Isolator.
Record t := {
  Name : ACIdentifier;
  Value : IsolatorValue
}.
End Isolator.

Definition Isolators := list Isolator.t.

Module App.
Record t := {
  Exec : list string;
  Isolators : list Isolator.t
}.
End App.

Module ImageManifest.
(** [App] is a pointer in the source: [None] is the nil pointer. *)
Record t := {
  Name : ACIdentifier;
  Labels : Labels;
  App : option App.t;
  Annotations : Annotations
}.
End ImageManifest.

(** ** Options *)

Module Options.
Record t := {
  ParentCgroupName : string;
  ContainerDirectory : string;
  VolumeDirectory : string;
  RequiredNamespaces : list string
}.
End Options.

(** ** Opaque types of the imported packages *)

Class Handles := {
  Hash : Type;            (* types.Hash *)
  Logger : Type;          (* *logray.Logger *)
  ImageManager : Type;    (* stage1.ImageManager *)
  NetworkManager : Type;  (* stage1.NetworkManager *)
  Cgroup : Type;          (* *cgroups.Cgroup *)
  World : Type            (* the host: cgroup hierarchy and file system *)
}.

Module RuntimeImage.
(** [Name] is a pointer in the source. *)
Record t `{Handles} := {
  ID : Hash;
  Name : option ACIdentifier;
  Labels : Labels
}.
End RuntimeImage.

Module RuntimeApp.
Record t `{Handles} := {
  Name : ACName;
  App : option App.t;
  Image : RuntimeImage.t
}.
End RuntimeApp.

Module PodManifest.
(** The fields of [schema.PodManifest] that the manager reads or writes,
    with the version and kind that a blank manifest carries. *)
Record t `{Handles} := {
  ACVersion : string;
  ACKind : string;
  Apps : list RuntimeApp.t;
  Annotations : Annotations
}.
End PodManifest.

Module Container.
(** The fields that [Create] fills in. The pointer back to the manager and
    the wait channel are not represented. *)
Record t `{Handles} := {
  log : Logger;
  uuid : string;
  imageHash : string;
  image : ImageManifest.t;
  pod : PodManifest.t
}.
End Container.

Module Manager.
Record t `{Handles} := {
  Log : Logger;
  Options : Options.t;
  imageManager : ImageManager;
  networkManager : NetworkManager;
  cgroup : Cgroup;
  containers : gmap string Container.t;
  HostSocketFile : string
}.
End Manager.

(** ** Operations and constants of the imported packages *)

Class Imports `{Handles} := {
  (* github.com/appc/spec/schema/types *)
  NewHash : string → result Hash;
  ValidACName_MatchString : string → bool;
  GetByName : Isolators → ACIdentifier → option Isolator.t;
  (* github.com/apcera/kurma/schema *)
  LinuxNamespacesName : ACIdentifier;
  LinuxNamespaceHost : LinuxNamespaceValue;
  BlankPodManifest : PodManifest.t;
  (* the container package, in a file other than the manager's *)
  convertACIdentifierToACName : ACIdentifier → result ACName;
  (* github.com/apcera/logray *)
  logray_New : Logger;
  Clone : Logger → Logger;
  SetField : string → string → Logger → Logger;
  (* github.com/apcera/kurma/util/cgroups *)
  CheckCgroups : World → option error * World;
  cgroups_New : string → World → result Cgroup * World;
  (* path/filepath and os *)
  filepath_Join : string → string → string;
  os_Mkdir : string → Z → World → option error * World;
  os_IsExist : error → bool
}.

(** The result of running a Go closure: it returns or it panics. *)
Inductive outcome :=
| Returned
| Panicked (v : string).

Section ContainerManager.
Context {handles : Handles} {imports : Imports}.

(** *** NewManager *)

Definition NewManager (imageManager : ImageManager)
    (networkManager : NetworkManager) (opts : Options.t) (w : World)
  : result Manager.t * World :=
  (* validate cgroups is properly setup on the host *)
  let '(r, w) := CheckCgroups w in
  match r with
  | Some err => (Err ("failed to check cgroups: " +:+ err), w)
  | None =>
      (* create the parent cgroup for all child containers to be in *)
      let '(r, w) := cgroups_New (Options.ParentCgroupName opts) w in
      match r with
      | Err err => (Err err, w)
      | Ok cg =>
          (Ok {| Manager.Log := logray_New;
                 Manager.Options := opts;
                 Manager.imageManager := imageManager;
                 Manager.networkManager := networkManager;
                 Manager.cgroup := cg;
                 Manager.containers := ∅;
                 Manager.HostSocketFile := "" |}, w)
      end
  end.

(** *** Validate *)

(** The [checks] table: namespace kind to the accessor bound to [niso]. *)
Definition checks (niso : LinuxNamespaces.t)
  : gmap string (unit → LinuxNamespaceValue) :=
  <["ipc" := λ _, LinuxNamespaces.IPC niso]>
  (<["net" := λ _, LinuxNamespaces.Net niso]>
  (<["pid" := λ _, LinuxNamespaces.PID niso]>
  (<["user" := λ _, LinuxNamespaces.User niso]>
  (<["uts" := λ _, LinuxNamespaces.UTS niso]> ∅)))).

Definition internalServerError : error := "Internal server error".

Definition mustRequireError (ns : string) : error :=
  "the manifest " +:+ LinuxNamespacesName +:+ " isolator must require the "
    +:+ ns +:+ " namespace".

(** The loop over [manager.Options.RequiredNamespaces]. *)
Fixpoint validateRequired (niso : LinuxNamespaces.t)
    (required : list string) : option error :=
  match required with
  | [] => None
  | ns :: required =>
      match checks niso !! ns with
      | None => Some internalServerError
      | Some f =>
          if decide (f () = LinuxNamespaceHost)
          then Some (mustRequireError ns)
          else validateRequired niso required
      end
  end.

(** The keys of [checks], and whether [niso] sets kind [ns] to the host's
    namespace: the vocabulary of the statements about [Validate]. *)
Definition checkableKinds : list string := ["ipc"; "net"; "pid"; "user"; "uts"].

Definition hostShared (niso : LinuxNamespaces.t) (ns : string) : bool :=
  match checks niso !! ns with
  | Some f => bool_decide (f () = LinuxNamespaceHost)
  | None => false
  end.

Definition missingAppError : error := "the manifest must specify an App".

Definition Validate (manager : Manager.t) (imageManifest : ImageManifest.t)
  : option error :=
  match ImageManifest.App imageManifest with
  | None => Some missingAppError
  | Some app =>
      (* If the namespaces isolator is specified, validate a minimum set
         of namespaces *)
      match GetByName (App.Isolators app) LinuxNamespacesName with
      | Some iso =>
          match Isolator.Value iso with
          | LinuxNamespacesValue niso =>
              validateRequired niso
                (Options.RequiredNamespaces (Manager.Options manager))
          | OtherIsolatorValue _ => None
          end
      | None => None
      end
  end.

(** *** Create *)

Definition setContainers (containers : gmap string Container.t)
    (manager : Manager.t) : Manager.t :=
  {| Manager.Log := Manager.Log manager;
     Manager.Options := Manager.Options manager;
     Manager.imageManager := Manager.imageManager manager;
     Manager.networkManager := Manager.networkManager manager;
     Manager.cgroup := Manager.cgroup manager;
     Manager.containers := containers;
     Manager.HostSocketFile := Manager.HostSocketFile manager |}.

(** Modelled from the spec: [Container.start] is defined in a file of the
    container package that is not among the sources. The spec has it
    "asynchronously begin the container's startup sequence", with creation
    returning "immediately after registration, without waiting for startup
    to complete": at the return of [Create] it has changed neither the
    container nor the manager. *)
Definition start (container : Container.t) (manager : Manager.t)
  : Container.t * Manager.t :=
  (container, manager).

(** [uuid] is the string that [uuid.Variant4().String()] draws. *)
Definition Create (manager : Manager.t) (name : string)
    (imageManifest : ImageManifest.t) (imageHash : string) (uuid : string)
  : result Container.t * Manager.t :=
  (* revalidate the image *)
  match Validate manager imageManifest with
  | Some err => (Err err, manager)
  | None =>
      match NewHash imageHash with
      | Err err => (Err err, manager)
      | Ok hash =>
          (* handle a blank name *)
          let named :=
            if decide (name = "")
            then convertACIdentifierToACName
                   (ImageManifest.Name imageManifest)
            else Ok name in
          match named with
          | Err err => (Err err, manager)
          | Ok name =>
              (* populate the container *)
              let pod := BlankPodManifest in
              let pod :=
                {| PodManifest.ACVersion := PodManifest.ACVersion pod;
                   PodManifest.ACKind := PodManifest.ACKind pod;
                   PodManifest.Apps := PodManifest.Apps pod;
                   PodManifest.Annotations :=
                     ImageManifest.Annotations imageManifest |} in
              let pod :=
                {| PodManifest.ACVersion := PodManifest.ACVersion pod;
                   PodManifest.ACKind := PodManifest.ACKind pod;
                   PodManifest.Apps :=
                     [ {| RuntimeApp.Name := name;
                          RuntimeApp.App :=
                            ImageManifest.App imageManifest;
                          RuntimeApp.Image :=
                            {| RuntimeImage.ID := hash;
                               RuntimeImage.Name :=
                                 Some (ImageManifest.Name imageManifest);
                               RuntimeImage.Labels :=
                                 ImageManifest.Labels imageManifest |} |} ];
                   PodManifest.Annotations := PodManifest.Annotations pod |} in
              let container :=
                {| Container.log :=
                     SetField "container" uuid (Clone (Manager.Log manager));
                   Container.uuid := uuid;
                   Container.imageHash := imageHash;
                   Container.image := imageManifest;
                   Container.pod := pod |} in
              (* add it to the manager's map *)
              let manager :=
                setContainers
                  (<[Container.uuid container := container]>
                     (Manager.containers manager)) manager in
              (* begin the startup sequence *)
              let '(container, manager) := start container manager in
              (Ok container, manager)
          end
      end
  end.

(** *** remove, Container *)

Definition remove (manager : Manager.t) (container : Container.t)
  : Manager.t :=
  setContainers
    (delete (Container.uuid container) (Manager.containers manager))
    manager.

(** [Container] returns the container registered under [uuid], or nil. *)
Definition Container (manager : Manager.t) (uuid : string)
  : option Container.t :=
  Manager.containers manager !! uuid.

(** *** SwapDirectory *)

Definition setContainerDirectory (dir : string) (manager : Manager.t)
  : Manager.t :=
  let o := Manager.Options manager in
  {| Manager.Log := Manager.Log manager;
     Manager.Options :=
       {| Options.ParentCgroupName := Options.ParentCgroupName o;
          Options.ContainerDirectory := dir;
          Options.VolumeDirectory := Options.VolumeDirectory o;
          Options.RequiredNamespaces := Options.RequiredNamespaces o |};
     Manager.imageManager := Manager.imageManager manager;
     Manager.networkManager := Manager.networkManager manager;
     Manager.cgroup := Manager.cgroup manager;
     Manager.containers := Manager.containers manager;
     Manager.HostSocketFile := Manager.HostSocketFile manager |}.

(** [f] is a closure over the manager: it is given the manager as
    [SwapDirectory] prepared it and leaves the manager it has made of it.
    The deferred function runs on both exits of [f]; a panic goes on to the
    caller after it. *)
Definition SwapDirectory (manager : Manager.t) (containerDirectory : string)
    (f : Manager.t → outcome * Manager.t) : outcome * Manager.t :=
  let dir := Options.ContainerDirectory (Manager.Options manager) in
  let manager := setContainerDirectory containerDirectory manager in
  match f manager with
  | (Returned, manager) => (Returned, setContainerDirectory dir manager)
  | (Panicked v, manager) => (Panicked v, setContainerDirectory dir manager)
  end.

(** *** getVolumePath *)

Definition invalidVolumeNameError : error :=
  "invalid characters present in volume name".

(** [os.FileMode(0755)], an octal literal. *)
Definition mode_0755 : Z := 7 * 64 + 5 * 8 + 5.

Definition getVolumePath (manager : Manager.t) (name : string) (w : World)
  : result string * World :=
  if negb (ValidACName_MatchString name)
  then (Err invalidVolumeNameError, w)
  else
    let volumePath :=
      filepath_Join (Options.VolumeDirectory (Manager.Options manager))
        name in
    let '(r, w) := os_Mkdir volumePath mode_0755 w in
    match r with
    | Some err =>
        if negb (os_IsExist err) then (Err err, w) else (Ok volumePath, w)
    | None => (Ok volumePath, w)
    end.

(** *** SetLog, SetHostSocketFile, SetNetworkManager, Containers *)

Definition SetLog (manager : Manager.t) (log : Logger) : Manager.t :=
  {| Manager.Log := log;
     Manager.Options := Manager.Options manager;
     Manager.imageManager := Manager.imageManager manager;
     Manager.networkManager := Manager.networkManager manager;
     Manager.cgroup := Manager.cgroup manager;
     Manager.containers := Manager.containers manager;
     Manager.HostSocketFile := Manager.HostSocketFile manager |}.

Definition SetHostSocketFile (manager : Manager.t) (hostSocketFile : string)
  : Manager.t :=
  {| Manager.Log := Manager.Log manager;
     Manager.Options := Manager.Options manager;
     Manager.imageManager := Manager.imageManager manager;
     Manager.networkManager := Manager.networkManager manager;
     Manager.cgroup := Manager.cgroup manager;
     Manager.containers := Manager.containers manager;
     Manager.HostSocketFile := hostSocketFile |}.

Definition SetNetworkManager (manager : Manager.t)
    (networkManager : NetworkManager) : Manager.t :=
  {| Manager.Log := Manager.Log manager;
     Manager.Options := Manager.Options manager;
     Manager.imageManager := Manager.imageManager manager;
     Manager.networkManager := networkManager;
     Manager.cgroup := Manager.cgroup manager;
     Manager.containers := Manager.containers manager;
     Manager.HostSocketFile := Manager.HostSocketFile manager |}.

(** [Containers] appends the values met while ranging over the map. Go
    leaves the order of that range open; the list is given here in the order
    of [map_to_list], and statements about it hold up to permutation. *)
Definition Containers (manager : Manager.t) : list Container.t :=
  (map_to_list (Manager.containers manager)).*2.

End ContainerManager.

(** ** The network package: [random] *)

Local Open Scope nat_scope.

Definition alphaNumericalCharacters : string :=
  "0123456789ABCDEFGHIJKLMNOPQRSTUVWXYZabcdefghijklmnopqrstuvwxyz".

(** A Go string is its sequence of bytes. *)
Definition bytes (s : string) : list Byte.byte := String.list_byte_of_string s.

Definition byte_to_Z (c : Byte.byte) : Z := Z.of_N (Byte.to_N c).

(** [s[i]]; [None] is the index-out-of-range panic. *)
Definition index (s : string) (i : Z) : option Byte.byte :=
  if decide (0 ≤ i)%Z then bytes s !! Z.to_nat i else None.

(** [byte(len(alphaNumericalCharacters))], a conversion to 8 bits. *)
Definition alphabetSize : Z :=
  (Z.of_nat (length (bytes alphaNumericalCharacters)) `mod` 256)%Z.

(** [rand.Read(b)]: the source delivers [entropy]; when it runs short the
    rest of [b] is left as it was (the error is dropped by [random]). *)
Definition rand_Read (entropy : list Byte.byte) (b : list Byte.byte)
  : list Byte.byte :=
  take (length b) entropy ++ drop (length entropy) b.

(** The [for i, c := range b] loop from index [i] on, [todo] rounds left:
    each round reads [b[i]] and stores the character chosen for it. *)
Fixpoint limitToAlphabet (b : list Byte.byte) (i todo : nat)
  : option (list Byte.byte) :=
  match todo with
  | O => Some b
  | S todo =>
      c ← b !! i;
      x ← index alphaNumericalCharacters (byte_to_Z c `mod` alphabetSize)%Z;
      limitToAlphabet (<[i := x]> b) (S i) todo
  end.

(** [None] is a panic ([make] with a negative length, or an index out of
    range). *)
Definition random (n : Z) (entropy : list Byte.byte) : option string :=
  (* enforce a max limit for some sanity *)
  let n := if decide (n > 32)%Z then 32%Z else n in
  if decide (n < 0)%Z then None
  else
    let b := replicate (Z.to_nat n) Byte.x00 in
    let b := rand_Read entropy b in
    b ← limitToAlphabet b 0 (length b);
    Some (String.string_of_list_byte b).

(** ** The network package: interface names *)

Module IPResult.
(** Of [types.IPResult], the field that [generateInterfaceName] reads. *)
Record t := {
  ContainerInterface : string
}.
End IPResult.

Module FuncMap.
(** The four entries of the [template.FuncMap]. [random] is given, with its
    argument, the bytes that the random source delivers to that call. *)
Record t := {
  uuid : unit → string;
  shortuuid : unit → option string;
  num : unit → Z;
  random : Z → list Byte.byte → option string
}.
End FuncMap.

(** [s[:n]]; [None] is the slice-bounds panic. *)
Definition slice_to (s : string) (n : nat) : option string :=
  if decide (n ≤ length (bytes s))
  then Some (String.string_of_list_byte (take n (bytes s)))
  else None.

(** What text/template and fmt provide. *)
Class TemplateImports := {
  Template : Type;
  (* template.New("interface").Funcs(funcsMap).Parse(text) *)
  template_Parse : FuncMap.t → string → result Template;
  (* tmpl.Execute(buffer, nil) followed by buffer.String(); the template may
     call the functions, [random] with the bytes of the random source *)
  template_Execute : Template → list Byte.byte → result string;
  (* the %q verb *)
  fmt_q : string → string
}.

Section InterfaceNames.
Context {handles : Handles} {templates : TemplateImports}.

Definition funcsForContainer (container : Container.t)
    (interfaces : list IPResult.t) : FuncMap.t :=
  {| FuncMap.uuid := λ _, Container.uuid container;
     FuncMap.shortuuid := λ _, slice_to (Container.uuid container) 8;
     FuncMap.num := λ _, Z.of_nat (length interfaces);
     FuncMap.random := random |}.

Definition notUniqueError (cint : string) : error :=
  "interface " +:+ fmt_q cint +:+ " is not unique on the container".

(** The loop over [interfaces] that looks for the name. *)
Fixpoint checkUnique (cint : string) (interfaces : list IPResult.t)
  : option error :=
  match interfaces with
  | [] => None
  | res :: interfaces =>
      if decide (IPResult.ContainerInterface res = cint)
      then Some (notUniqueError cint)
      else checkUnique cint interfaces
  end.

(** [containerInterface] is [d.config.ContainerInterface], the text of the
    template. *)
Definition generateInterfaceName (containerInterface : string)
    (container : Container.t) (interfaces : list IPResult.t)
    (entropy : list Byte.byte) : result string :=
  let funcsMap := funcsForContainer container interfaces in
  (* parse the template *)
  match template_Parse funcsMap containerInterface with
  | Err err => Err err
  | Ok tmpl =>
      (* execute the template and return *)
      match template_Execute tmpl entropy with
      | Err err => Err err
      | Ok cint =>
          match checkUnique cint interfaces with
          | Some err => Err err
          | None => Ok cint
          end
      end
  end.

End InterfaceNames.

#[local] Instance byte_eq_dec : EqDecision Byte.byte := Byte.byte_eq_dec.

(** The 256 bytes, to count over what [rand.Read] can deliver. *)
Definition allBytes : list Byte.byte :=
  omap (λ n, Byte.of_N (N.of_nat n)) (seq 0 256).

(** ** The init package: the boot sequence *)

Module Boot.

(** The methods of [runner] listed in [setupFunctions]. Their bodies are in
    other files of the package. *)
Inductive setupFunction :=
| createSystemMounts
| configureEnvironment
| mountCgroups
| loadModules
| configureHostname
| configureNetwork
| displayNetwork
| createDirectories
| readonly
| launchManager
| startInitContainers
| startServer.

Definition setupFunctions : list setupFunction :=
  [ createSystemMounts;
    configureEnvironment;
    mountCgroups;
    loadModules;
    configureHostname;
    configureNetwork;
    displayNetwork;
    createDirectories;
    readonly;
    launchManager;
    startInitContainers;
    startServer ].

Definition cgroupsMount : string := "/sys/fs/cgroup".

(** [runner] stands for the runner together with the host it sets up; [call]
    runs the body of a setup function on it; [fmt_v_func] is what the %v verb
    prints for the function value. *)
Class Imports := {
  runner : Type;
  call : setupFunction → runner → option error * runner;
  fmt_v_func : setupFunction → string
}.

Section Run.
Context {imports : Imports}.

(** The loop of [runner.Run] over the functions still to run. *)
Fixpoint runSetup (fs : list setupFunction) (r : runner)
  : option error * runner :=
  match fs with
  | [] => (None, r)
  | f :: fs =>
      let '(e, r) := call f r in
      match e with
      | Some err => (Some (fmt_v_func f +:+ ": " +:+ err), r)
      | None => runSetup fs r
      end
  end.

Definition runner_Run (r : runner) : option error * runner :=
  runSetup setupFunctions r.

(** Every function of [fs] returns nil, taking the runner from [r] to
    [r']. *)
Inductive succeed : list setupFunction → runner → runner → Prop :=
| succeed_nil r : succeed [] r r
| succeed_cons f fs r r1 r2 :
    call f r = (None, r1) → succeed fs r1 r2 → succeed (f :: fs) r r2.

End Run.

End Boot.

(** ** The apiproxy package: image requests *)

Module ApiProxy.

(** The [http.ResponseWriter] as a recorder: the status code sent, if any,
    and the body written so far. *)
Module ResponseWriter.
Record t := {
  code : option Z;
  body : string
}.
End ResponseWriter.

(** [w.WriteHeader(code)]: the first status code sent is the one kept. *)
Definition WriteHeader (code : Z) (w : ResponseWriter.t) : ResponseWriter.t :=
  match ResponseWriter.code w with
  | Some _ => w
  | None =>
      {| ResponseWriter.code := Some code;
         ResponseWriter.body := ResponseWriter.body w |}
  end.

Definition StatusOK : Z := 200.
Definition StatusCreated : Z := 201.
Definition StatusBadRequest : Z := 400.
Definition StatusInternalServerError : Z := 500.

(** [w.Write]: sends status 200 first when no status was sent. *)
Definition Write (data : string) (w : ResponseWriter.t) : ResponseWriter.t :=
  let w := WriteHeader StatusOK w in
  {| ResponseWriter.code := ResponseWriter.code w;
     ResponseWriter.body := ResponseWriter.body w +:+ data |}.

(** The line feed. *)
Definition newline : string := String (Ascii.ascii_of_nat 10) "".

(** [http.Error(w, msg, code)]: the status, then the message and a line
    feed. *)
Definition http_Error (w : ResponseWriter.t) (msg : string) (code : Z)
  : ResponseWriter.t :=
  Write (msg +:+ newline) (WriteHeader code w).

Module ImageFetchRequest.
Record t {FetchConfig : Type} := {
  ImageURI : string;
  FetchConfig_ : FetchConfig
}.
Arguments t : clear implicits.
End ImageFetchRequest.

(** The client of the daemon and the JSON codec. [Daemon] is the state
    behind the client. [json_Unmarshal] yields a pointer, [None] when the
    document leaves it nil. *)
Class Imports := {
  Image : Type;
  Body : Type;
  FetchConfig : Type;
  Daemon : Type;
  CreateImage : Body → Daemon → result Image * Daemon;
  FetchImage : string → FetchConfig → Daemon → result Image * Daemon;
  ListImages : Daemon → result (list Image) * Daemon;
  GetImage : string → Daemon → result Image * Daemon;
  DeleteImage : string → Daemon → option error * Daemon;
  json_Unmarshal :
    Body → result (option (ImageFetchRequest.t FetchConfig));
  (* json.NewEncoder(w).Encode of an ImageResponse holding the image *)
  json_Encode : Image → string
}.

Section Handlers.
Context {imports : Imports}.

(** [resp.Image] and [resp.Images], the fields that the services fill. *)
Definition ImageResponse := option Image.
Definition ImageListResponse := list Image.

Definition imageCreateRequest (w : ResponseWriter.t) (body : Body)
    (d : Daemon) : ResponseWriter.t * Daemon :=
  let '(r, d) := CreateImage body d in
  match r with
  | Err err => (http_Error w "Failed to create image" 500, d)
  | Ok image =>
      let w := WriteHeader StatusCreated w in
      (Write (json_Encode image) w, d)
  end.

(** A request whose document leaves the pointer nil makes the handler
    dereference nil: it panics. *)
Definition imageFetchRequest (w : ResponseWriter.t) (body : Body)
    (d : Daemon) : outcome * ResponseWriter.t * Daemon :=
  match json_Unmarshal body with
  | Err err =>
      (Returned,
       http_Error w "Failed to parse request body" StatusBadRequest, d)
  | Ok None => (Panicked "nil pointer dereference", w, d)
  | Ok (Some imageFetchRequest) =>
      let '(r, d) :=
        FetchImage (ImageFetchRequest.ImageURI imageFetchRequest)
          (ImageFetchRequest.FetchConfig_ imageFetchRequest) d in
      match r with
      | Err err =>
          (Returned,
           http_Error w "Failed to fetch image" StatusInternalServerError, d)
      | Ok image =>
          let w := WriteHeader StatusCreated w in
          (Returned, Write (json_Encode image) w, d)
      end
  end.

Definition noHashError : error := "no image hash was specified".

Definition List (resp : ImageListResponse) (d : Daemon)
  : option error * ImageListResponse * Daemon :=
  let '(r, d) := ListImages d in
  match r with
  | Err err => (Some err, resp, d)
  | Ok images => (None, images, d)
  end.

(** [hash] is a pointer: [None] is nil. *)
Definition Get (hash : option string) (resp : ImageResponse) (d : Daemon)
  : option error * ImageResponse * Daemon :=
  match hash with
  | None => (Some noHashError, resp, d)
  | Some hash =>
      let '(r, d) := GetImage hash d in
      match r with
      | Err err => (Some err, resp, d)
      | Ok image => (None, Some image, d)
      end
  end.

Definition Delete (hash : option string) (resp : ImageResponse) (d : Daemon)
  : option error * ImageResponse * Daemon :=
  match hash with
  | None => (Some noHashError, resp, d)
  | Some hash =>
      let '(e, d) := DeleteImage hash d in
      (e, resp, d)
  end.
End Handlers.

End ApiProxy.

(** ** A sample host and sample imports

    One instance of [Handles] and [Imports], small enough to evaluate, on
    which the statements below are exercised. It stands for the imported
    packages in examples only; every general statement is proved for all
    instances. *)

Module Sample.

Record world := {
  cgroupsMounted : bool;
  directories : list string;
  readOnly : bool
}.

#[local] Instance handles : Handles := {|
  Hash := string;
  Logger := list (string * string);
  ImageManager := unit;
  NetworkManager := unit;
  Cgroup := string;
  World := world
|}.

Fixpoint lastSegment (acc s : string) : string :=
  match s with
  | EmptyString => acc
  | String c s =>
      if Ascii.eqb c (Ascii.ascii_of_nat 47) (* the slash *) then lastSegment "" s
      else lastSegment (acc +:+ String c "") s
  end.

Definition lowerOrDigit (c : Ascii.ascii) : bool :=
  let n := Ascii.nat_of_ascii c in
  ((48 <=? n) && (n <=? 57)) || ((97 <=? n) && (n <=? 122)).

Fixpoint allLowerOrDigit (s : string) : bool :=
  match s with
  | EmptyString => true
  | String c s => lowerOrDigit c && allLowerOrDigit s
  end.

Definition mkdir (path : string) (mode : Z) (w : world)
  : option error * world :=
  if bool_decide (path ∈ directories w) then (Some "file exists", w)
  else if readOnly w then (Some "read-only file system", w)
  else (None, {| cgroupsMounted := cgroupsMounted w;
                 directories := path :: directories w;
                 readOnly := readOnly w |}).

#[local] Instance imports : Imports := {|
  NewHash s :=
    if String.prefix "sha512-" s then Ok s
    else Err "badly formatted hash string";
  ValidACName_MatchString s :=
    negb (bool_decide (s = "")) && allLowerOrDigit s;
  GetByName isolators name :=
    List.find (λ iso, bool_decide (Isolator.Name iso = name)) isolators;
  LinuxNamespacesName := "os/linux/namespaces";
  LinuxNamespaceHost := "host";
  BlankPodManifest :=
    {| PodManifest.ACVersion := "0.7.4"; PodManifest.ACKind := "PodManifest";
       PodManifest.Apps := []; PodManifest.Annotations := [] |};
  convertACIdentifierToACName name :=
    let n := lastSegment "" name in
    if allLowerOrDigit n && negb (bool_decide (n = "")) then Ok n
    else Err "invalid name";
  logray_New := [];
  Clone l := l;
  SetField k v l := (k, v) :: l;
  CheckCgroups w :=
    (if cgroupsMounted w then None else Some "cgroups not mounted", w);
  cgroups_New name w :=
    (if bool_decide (name = "") then Err "empty cgroup name" else Ok name, w);
  filepath_Join dir name := dir +:+ "/" +:+ name;
  os_Mkdir := mkdir;
  os_IsExist err := bool_decide (err = "file exists")
|}.

Definition options (required : list string) : Options.t :=
  {| Options.ParentCgroupName := "kurma";
     Options.ContainerDirectory := "/var/kurma/containers";
     Options.VolumeDirectory := "/var/kurma/volumes";
     Options.RequiredNamespaces := required |}.

Definition manager (required : list string) : Manager.t :=
  {| Manager.Log := [];
     Manager.Options := options required;
     Manager.imageManager := ();
     Manager.networkManager := ();
     Manager.cgroup := "kurma";
     Manager.containers := ∅;
     Manager.HostSocketFile := "" |}.

Definition namespaces (net pid : LinuxNamespaceValue) : LinuxNamespaces.t :=
  {| LinuxNamespaces.IPC := ""; LinuxNamespaces.Net := net;
     LinuxNamespaces.PID := pid; LinuxNamespaces.User := "";
     LinuxNamespaces.UTS := "" |}.

Definition app (isolators : Isolators) : App.t :=
  {| App.Exec := ["/bin/app"]; App.Isolators := isolators |}.

Definition isolated (net pid : LinuxNamespaceValue) : Isolators :=
  [ {| Isolator.Name := "os/linux/namespaces";
       Isolator.Value := LinuxNamespacesValue (namespaces net pid) |} ].

Definition manifest (a : option App.t) : ImageManifest.t :=
  {| ImageManifest.Name := "example.com/app";
     ImageManifest.Labels := [("version", "1.0")];
     ImageManifest.App := a;
     ImageManifest.Annotations := [("created", "2016")] |}.

Definition host (dirs : list string) (ro : bool) : world :=
  {| cgroupsMounted := true; directories := dirs; readOnly := ro |}.

Definition container (uuid : string) : Container.t :=
  {| Container.log := [("container", uuid)];
     Container.uuid := uuid;
     Container.imageHash := "sha512-abc";
     Container.image := manifest (Some (app []));
     Container.pod := BlankPodManifest |}.

(** A template engine that knows three texts: the two that call [uuid] and
    [shortuuid], and literal text. *)
#[local] Instance templates : TemplateImports := {|
  Template := FuncMap.t * string;
  template_Parse funcs text :=
    if bool_decide (text = "") then Err "empty template" else Ok (funcs, text);
  template_Execute tmpl entropy :=
    if bool_decide (tmpl.2 = "{{uuid}}") then Ok (FuncMap.uuid tmpl.1 ())
    else if bool_decide (tmpl.2 = "{{shortuuid}}") then
      match FuncMap.shortuuid tmpl.1 () with
      | Some s => Ok s
      | None => Err "error calling shortuuid"
      end
    else Ok tmpl.2;
  fmt_q s :=
    String (Ascii.ascii_of_nat 34) "" +:+ s +:+ String (Ascii.ascii_of_nat 34) ""
|}.

Definition interface (name : string) : IPResult.t :=
  {| IPResult.ContainerInterface := name |}.

(** A boot in which the step [broken], if any, fails; [ran] records the
    steps run, the latest first. *)
Record boot := {
  ran : list Boot.setupFunction;
  broken : option Boot.setupFunction
}.

#[local] Instance setupFunction_eq_dec : EqDecision Boot.setupFunction.
Proof. solve_decision. Defined.

#[local] Instance bootImports : Boot.Imports := {|
  Boot.runner := boot;
  Boot.call f r :=
    (if bool_decide (broken r = Some f) then Some "exit status 1" else None,
     {| ran := f :: ran r; broken := broken r |});
  Boot.fmt_v_func f := "0x401000"
|}.

(** A daemon that keeps the images it was given, the latest first. *)
#[local] Instance apiImports : ApiProxy.Imports := {|
  ApiProxy.Image := string;
  ApiProxy.Body := string;
  ApiProxy.FetchConfig := unit;
  ApiProxy.Daemon := list string;
  ApiProxy.CreateImage body d :=
    if bool_decide (body = "") then (Err "empty archive", d)
    else (Ok body, body :: d);
  ApiProxy.FetchImage uri _ d :=
    if String.prefix "file://" uri then (Ok uri, uri :: d)
    else (Err "unsupported scheme", d);
  ApiProxy.ListImages d := (Ok d, d);
  ApiProxy.GetImage hash d :=
    if bool_decide (hash ∈ d) then (Ok hash, d) else (Err "not found", d);
  ApiProxy.DeleteImage hash d :=
    if bool_decide (hash ∈ d)
    then (None, filter (λ image, image ≠ hash) d)
    else (Some "not found", d);
  ApiProxy.json_Unmarshal body :=
    if bool_decide (body = "") then Err "unexpected end of JSON input"
    else if bool_decide (body = "null") then Ok None
    else Ok (Some {| ApiProxy.ImageFetchRequest.ImageURI := body;
                     ApiProxy.ImageFetchRequest.FetchConfig_ := () |});
  ApiProxy.json_Encode image := "{image:" +:+ image +:+ "}"
|}.

Definition blank : ApiProxy.ResponseWriter.t :=
  {| ApiProxy.ResponseWriter.code := None;
     ApiProxy.ResponseWriter.body := "" |}.

End Sample.


(** * Properties *)

(** ** Validate *)

Section ValidateProperties.
Context {handles : Handles} {imports : Imports}.

Lemma checks_lookup_None niso ns :
  checks niso !! ns = None ↔ ns ∉ checkableKinds.
Proof.
  unfold checks, checkableKinds.
  rewrite !lookup_insert_None, lookup_empty, !not_elem_of_cons.
  pose proof (not_elem_of_nil ns). intuition congruence.
Qed.

Lemma checks_lookup_Some niso ns :
  is_Some (checks niso !! ns) ↔ ns ∈ checkableKinds.
Proof.
  destruct (decide (ns ∈ checkableKinds)) as [Hin|Hout].
  - split; [done|]. intros _.
    destruct (checks niso !! ns) eqn:E; [by eexists|].
    by apply (checks_lookup_None niso) in E.
  - split; [|done]. intros [f Hf].
    apply (checks_lookup_None niso) in Hout. congruence.
Qed.

Lemma hostShared_checkable niso ns :
  hostShared niso ns = true → ns ∈ checkableKinds.
Proof.
  unfold hostShared. intros Hs. apply (checks_lookup_Some niso).
  destruct (checks niso !! ns); [by eexists|discriminate].
Qed.

Lemma mustRequireError_not_internal ns :
  mustRequireError ns ≠ internalServerError.
Proof. unfold mustRequireError, internalServerError. simpl. discriminate. Qed.

(** One round of the loop, by what the table says of the kind. *)
Lemma validateRequired_cons niso ns required :
  validateRequired niso (ns :: required) =
    if bool_decide (ns ∈ checkableKinds)
    then if hostShared niso ns then Some (mustRequireError ns)
         else validateRequired niso required
    else Some internalServerError.
Proof.
  simpl. unfold hostShared. case_bool_decide as Hin.
  - apply (checks_lookup_Some niso) in Hin as [f Hf]. rewrite Hf.
    by destruct (decide (f () = LinuxNamespaceHost));
      [rewrite bool_decide_eq_true_2|rewrite bool_decide_eq_false_2].
  - apply (checks_lookup_None niso) in Hin. by rewrite Hin.
Qed.

(** The loop accepts exactly the lists whose kinds are all checkable and not
    shared with the host. *)
Lemma validateRequired_None niso required :
  validateRequired niso required = None ↔
  Forall (λ ns, ns ∈ checkableKinds ∧ hostShared niso ns = false) required.
Proof.
  induction required as [|ns required IH].
  - split; [constructor|done].
  - rewrite validateRequired_cons, Forall_cons, <- IH.
    case_bool_decide; [destruct (hostShared niso ns)|];
      intuition (discriminate || congruence).
Qed.

Lemma validateRequired_is_Some niso required :
  is_Some (validateRequired niso required) ↔
  ∃ ns, ns ∈ required ∧ (ns ∉ checkableKinds ∨ hostShared niso ns = true).
Proof.
  rewrite <- not_eq_None_Some, validateRequired_None. split.
  - intros Hnot. apply not_Forall_Exists in Hnot; [|intros k; apply _].
    apply Exists_exists in Hnot as (ns & Hin & Hbad).
    exists ns. split; [done|]. simpl in Hbad.
    destruct (decide (ns ∈ checkableKinds)); [right|by left].
    destruct (hostShared niso ns); [done|]. exfalso. apply Hbad. by split.
  - intros (ns & Hin & Hbad) Hall.
    rewrite Forall_forall in Hall. destruct (Hall ns Hin) as [Hk Hs].
    destruct Hbad; [done|congruence].
Qed.

(** The error of the loop when the first kind that is not checkable stands
    after [before]. *)
Lemma validateRequired_first_unchecked niso before ns after :
  Forall (λ k, k ∈ checkableKinds) before →
  ns ∉ checkableKinds →
  (validateRequired niso (before ++ ns :: after) = Some internalServerError ↔
   Forall (λ k, hostShared niso k = false) before).
Proof.
  intros Hbefore Hns. induction Hbefore as [|k before Hk _ IH]; simpl app.
  - rewrite validateRequired_cons, bool_decide_eq_false_2 by done.
    split; [constructor|done].
  - rewrite validateRequired_cons, bool_decide_eq_true_2, Forall_cons by done.
    destruct (hostShared niso k).
    + split; [intros Heq|intros [[=] _]].
      apply (inj Some) in Heq. by apply mustRequireError_not_internal in Heq.
    + rewrite IH. intuition.
Qed.

(** The error of the loop names the first kind shared with the host when
    every kind before it is checkable and not shared. *)
Lemma validateRequired_first_hostShared niso before ns after :
  Forall (λ k, k ∈ checkableKinds ∧ hostShared niso k = false) before →
  hostShared niso ns = true →
  validateRequired niso (before ++ ns :: after) = Some (mustRequireError ns).
Proof.
  intros Hbefore Hns. induction Hbefore as [|k before [Hk Hk'] _ IH]; simpl app.
  - rewrite validateRequired_cons, Hns.
    by rewrite bool_decide_eq_true_2 by by apply (hostShared_checkable niso).
  - by rewrite validateRequired_cons, bool_decide_eq_true_2, Hk'.
Qed.

(** [Validate] on a manifest that declares the namespaces isolator with a
    value of the namespaces type is the loop. *)
Lemma Validate_declared manager imageManifest app iso niso :
  ImageManifest.App imageManifest = Some app →
  GetByName (App.Isolators app) LinuxNamespacesName = Some iso →
  Isolator.Value iso = LinuxNamespacesValue niso →
  Validate manager imageManifest =
    validateRequired niso
      (Options.RequiredNamespaces (Manager.Options manager)).
Proof. intros Happ Hiso Hval. unfold Validate. by rewrite Happ, Hiso, Hval. Qed.

End ValidateProperties.

Section ValidateClaims.
Context {handles : Handles} {imports : Imports}.

(** C1, as amended. For every required-namespace configuration and every
    manifest with an App whose namespaces isolator holds a namespaces value,
    [Validate] returns an error if and only if some required kind is not one
    of the checkable kinds or is set to host-shared in the isolator; hence,
    when every required kind is checkable, if and only if some required kind
    is set to host-shared. A manifest with an App that omits the namespaces
    isolator is never rejected, whatever the configuration. *)
Theorem Validate_required_namespaces :
  (∀ manager imageManifest app iso niso,
     ImageManifest.App imageManifest = Some app →
     GetByName (App.Isolators app) LinuxNamespacesName = Some iso →
     Isolator.Value iso = LinuxNamespacesValue niso →
     let required := Options.RequiredNamespaces (Manager.Options manager) in
     (is_Some (Validate manager imageManifest) ↔
        ∃ ns, ns ∈ required ∧
              (ns ∉ checkableKinds ∨ hostShared niso ns = true)) ∧
     (Forall (λ ns, ns ∈ checkableKinds) required →
        (is_Some (Validate manager imageManifest) ↔
           ∃ ns, ns ∈ required ∧ hostShared niso ns = true))) ∧
  (∀ manager imageManifest app,
     ImageManifest.App imageManifest = Some app →
     GetByName (App.Isolators app) LinuxNamespacesName = None →
     Validate manager imageManifest = None).
Proof.
  split.
  - intros manager imageManifest app iso niso Happ Hiso Hval required.
    rewrite (Validate_declared _ _ _ _ _ Happ Hiso Hval).
    fold required. rewrite validateRequired_is_Some. split; [done|].
    intros Hall. rewrite Forall_forall in Hall. split.
    + intros (ns & Hin & [Hout|Hshared]); [|by exists ns].
      by destruct Hout; apply Hall.
    + intros (ns & Hin & Hshared). exists ns. by auto.
  - intros manager imageManifest app Happ Hnone.
    unfold Validate. by rewrite Happ, Hnone.
Qed.

(** C4, as amended. For a manifest with an App whose namespaces isolator
    holds a namespaces value, and a required list in which a kind outside the
    checkable ones stands, [Validate] fails. When that kind is the first such
    kind of the list, the failure is the internal error exactly when no kind
    before it is set to host-shared (so always when it comes first); when a
    kind before it is set to host-shared, the failure is the isolation error
    naming the first such kind. *)
Theorem Validate_unchecked_kind
    manager imageManifest app iso niso before ns after :
  ImageManifest.App imageManifest = Some app →
  GetByName (App.Isolators app) LinuxNamespacesName = Some iso →
  Isolator.Value iso = LinuxNamespacesValue niso →
  Options.RequiredNamespaces (Manager.Options manager)
    = before ++ ns :: after →
  ns ∉ checkableKinds →
  is_Some (Validate manager imageManifest) ∧
  (Forall (λ k, k ∈ checkableKinds) before →
     (Validate manager imageManifest = Some internalServerError ↔
      Forall (λ k, hostShared niso k = false) before)) ∧
  (∀ clean k rest,
     before = clean ++ k :: rest →
     Forall (λ k, k ∈ checkableKinds ∧ hostShared niso k = false) clean →
     hostShared niso k = true →
     Validate manager imageManifest = Some (mustRequireError k)).
Proof.
  intros Happ Hiso Hval Hreq Hns.
  rewrite (Validate_declared _ _ _ _ _ Happ Hiso Hval), Hreq.
  split; [|split].
  - apply validateRequired_is_Some. exists ns. split; [|by left].
    apply elem_of_app. right. by left.
  - intros Hbefore. by apply validateRequired_first_unchecked.
  - intros clean k rest -> Hclean Hk. rewrite <- app_assoc, <- app_comm_cons.
    by apply validateRequired_first_hostShared.
Qed.

End ValidateClaims.

(** ** Create *)

Section CreateClaims.
Context {handles : Handles} {imports : Imports}.

(** The three ways in which [Create] fails, each leaving the manager as it
    was. *)
Lemma Create_Validate_error manager name imageManifest imageHash uuid err :
  Validate manager imageManifest = Some err →
  Create manager name imageManifest imageHash uuid = (Err err, manager).
Proof. intros Hv. unfold Create. by rewrite Hv. Qed.

Lemma Create_NewHash_error manager name imageManifest imageHash uuid err :
  Validate manager imageManifest = None →
  NewHash imageHash = Err err →
  Create manager name imageManifest imageHash uuid = (Err err, manager).
Proof. intros Hv Hh. unfold Create. by rewrite Hv, Hh. Qed.

Lemma Create_blank_name_error manager imageManifest imageHash uuid hash err :
  Validate manager imageManifest = None →
  NewHash imageHash = Ok hash →
  convertACIdentifierToACName (ImageManifest.Name imageManifest) = Err err →
  Create manager "" imageManifest imageHash uuid = (Err err, manager).
Proof. intros Hv Hh Hn. unfold Create. by rewrite Hv, Hh, decide_True, Hn. Qed.

(** C3. Whenever [Create] returns an error the manager is the one before the
    call, so the registry holds what it held and nothing else has changed;
    and the error is that of the validation, of the hash, or of the name
    derived for a blank name. *)
Theorem Create_error_leaves_manager
    manager name imageManifest imageHash uuid err manager' :
  Create manager name imageManifest imageHash uuid = (Err err, manager') →
  manager' = manager ∧
  Manager.containers manager' = Manager.containers manager ∧
  (Validate manager imageManifest = Some err ∨
   (Validate manager imageManifest = None ∧ NewHash imageHash = Err err) ∨
   (Validate manager imageManifest = None ∧
    (∃ hash, NewHash imageHash = Ok hash) ∧
    name = "" ∧
    convertACIdentifierToACName (ImageManifest.Name imageManifest)
      = Err err)).
Proof.
  unfold Create.
  destruct (Validate manager imageManifest) as [e|] eqn:Hv.
  { intros [= -> ->]. by repeat split; [left]. }
  destruct (NewHash imageHash) as [hash|e] eqn:Hh.
  2: { intros [= -> ->]. by repeat split; [right; left]. }
  destruct (decide (name = "")) as [->|Hname].
  - destruct (convertACIdentifierToACName _) as [n|e] eqn:Hn.
    { intros [=]. }
    intros [= -> ->]. repeat split; [].
    right; right. by repeat split; [exists hash|..].
  - intros [=].
Qed.

(** C5. A manifest without an App is refused by [Validate] with the
    missing-App error, and [Create] on it fails with that error before it
    registers anything: the manager, registry included, is unchanged. *)
Theorem Validate_Create_missing_App
    manager name imageManifest imageHash uuid :
  ImageManifest.App imageManifest = None →
  Validate manager imageManifest = Some missingAppError ∧
  Create manager name imageManifest imageHash uuid
    = (Err missingAppError, manager).
Proof.
  intros Happ.
  assert (Validate manager imageManifest = Some missingAppError) as Hv
    by (unfold Validate; by rewrite Happ).
  split; [done|]. by apply Create_Validate_error.
Qed.

(** C2, as amended. For a manifest with an App that [Validate] accepts, a
    well-formed hash, and a declared name that normalizes, [Create] with an
    empty name returns a container, registered under its identity, whose pod
    manifest has exactly one runtime app: named by the derived name, with the
    manifest's App as app spec and an image descriptor of the parsed hash,
    the declared name and the labels; the pod's annotations are the
    manifest's. *)
Theorem Create_blank_name
    manager imageManifest app imageHash hash n uuid :
  ImageManifest.App imageManifest = Some app →
  NewHash imageHash = Ok hash →
  Validate manager imageManifest = None →
  convertACIdentifierToACName (ImageManifest.Name imageManifest) = Ok n →
  ∃ container manager',
    Create manager "" imageManifest imageHash uuid = (Ok container, manager') ∧
    PodManifest.Apps (Container.pod container) =
      [ {| RuntimeApp.Name := n;
           RuntimeApp.App := Some app;
           RuntimeApp.Image :=
             {| RuntimeImage.ID := hash;
                RuntimeImage.Name := Some (ImageManifest.Name imageManifest);
                RuntimeImage.Labels := ImageManifest.Labels imageManifest |}
        |} ] ∧
    PodManifest.Annotations (Container.pod container) =
      ImageManifest.Annotations imageManifest ∧
    Container.imageHash container = imageHash ∧
    Container.uuid container = uuid ∧
    Container manager' uuid = Some container.
Proof.
  intros Happ Hh Hv Hn. unfold Create.
  rewrite Hv, Hh, decide_True, Hn by done. simpl.
  eexists _, _. split; [reflexivity|]. simpl. rewrite Happ.
  repeat split. unfold Container. simpl. apply lookup_insert_eq.
Qed.

End CreateClaims.

(** ** NewManager, remove, SwapDirectory, getVolumePath *)

Section ManagerClaims.
Context {handles : Handles} {imports : Imports}.

(** C6. [NewManager] first checks the cgroups of the host: when the check
    fails it returns an error and no manager, and the host is as the check
    left it (the parent cgroup is not created). It then creates the parent
    cgroup named by the options: when that fails it returns the error and no
    manager. Otherwise it returns a manager with an empty registry, holding
    the options, the two collaborators and the cgroup just created. *)
Theorem NewManager_checks_then_creates imageManager networkManager opts w :
  (∀ err w1,
     CheckCgroups w = (Some err, w1) →
     NewManager imageManager networkManager opts w
       = (Err ("failed to check cgroups: " +:+ err), w1)) ∧
  (∀ w1 err w2,
     CheckCgroups w = (None, w1) →
     cgroups_New (Options.ParentCgroupName opts) w1 = (Err err, w2) →
     NewManager imageManager networkManager opts w = (Err err, w2)) ∧
  (∀ w1 cg w2,
     CheckCgroups w = (None, w1) →
     cgroups_New (Options.ParentCgroupName opts) w1 = (Ok cg, w2) →
     ∃ manager,
       NewManager imageManager networkManager opts w = (Ok manager, w2) ∧
       Manager.containers manager = ∅ ∧
       (∀ uuid, Container manager uuid = None) ∧
       Manager.Options manager = opts ∧
       Manager.imageManager manager = imageManager ∧
       Manager.networkManager manager = networkManager ∧
       Manager.cgroup manager = cg).
Proof.
  unfold NewManager. split; [|split].
  - intros err w1 Hcheck. by rewrite Hcheck.
  - intros w1 err w2 Hcheck Hnew. by rewrite Hcheck, Hnew.
  - intros w1 cg w2 Hcheck Hnew. rewrite Hcheck, Hnew.
    eexists. split; [reflexivity|]. simpl. by split_and!.
Qed.

Lemma setContainers_same manager :
  setContainers (Manager.containers manager) manager = manager.
Proof. by destruct manager. Qed.

Lemma setContainers_twice c1 c2 manager :
  setContainers c2 (setContainers c1 manager) = setContainers c2 manager.
Proof. done. Qed.

(** C7. [remove] has no error to return. On a container whose identity is
    not registered it leaves the manager as it is, and removing a container a
    second time changes nothing after the first. In every case the identity
    is absent afterwards and every other registration is kept. *)
Theorem remove_absent_idempotent manager container :
  (Container manager (Container.uuid container) = None →
     remove manager container = manager) ∧
  remove (remove manager container) container = remove manager container ∧
  Container (remove manager container) (Container.uuid container) = None ∧
  (∀ uuid, uuid ≠ Container.uuid container →
     Container (remove manager container) uuid = Container manager uuid).
Proof.
  unfold remove, Container. split; [|split; [|split]].
  - intros Habsent. rewrite delete_id by done. apply setContainers_same.
  - rewrite setContainers_twice. simpl. by rewrite delete_delete_eq.
  - simpl. apply lookup_delete_eq.
  - intros uuid Hne. simpl. by apply lookup_delete_ne.
Qed.

Lemma setContainerDirectory_same manager :
  setContainerDirectory
    (Options.ContainerDirectory (Manager.Options manager)) manager = manager.
Proof. destruct manager as [? [] ? ? ? ? ?]. reflexivity. Qed.

Lemma setContainerDirectory_twice d1 d2 manager :
  setContainerDirectory d2 (setContainerDirectory d1 manager)
    = setContainerDirectory d2 manager.
Proof. done. Qed.

(** C9. [SwapDirectory] runs [f] on the manager with [ContainerDirectory]
    set to the path supplied and nothing else changed. Whether [f] returns or
    panics, the manager afterwards is the one [f] left with
    [ContainerDirectory] put back to its value from before the call: the
    other options and the other fields are as [f] left them, so a function
    that leaves the manager alone leaves it exactly as before the call. *)
Theorem SwapDirectory_restores manager containerDirectory f :
  let dir := Options.ContainerDirectory (Manager.Options manager) in
  let given := setContainerDirectory containerDirectory manager in
  Options.ContainerDirectory (Manager.Options given) = containerDirectory ∧
  setContainerDirectory dir given = manager ∧
  ∀ o left,
    f given = (o, left) →
    ∃ final,
      SwapDirectory manager containerDirectory f = (o, final) ∧
      final = setContainerDirectory dir left ∧
      Options.ContainerDirectory (Manager.Options final) = dir ∧
      Options.ParentCgroupName (Manager.Options final)
        = Options.ParentCgroupName (Manager.Options left) ∧
      Options.VolumeDirectory (Manager.Options final)
        = Options.VolumeDirectory (Manager.Options left) ∧
      Options.RequiredNamespaces (Manager.Options final)
        = Options.RequiredNamespaces (Manager.Options left) ∧
      (left = given → final = manager).
Proof.
  intros dir given. split; [done|]. split.
  { unfold given. rewrite setContainerDirectory_twice.
    apply setContainerDirectory_same. }
  intros o left Hf. exists (setContainerDirectory dir left).
  split.
  - unfold SwapDirectory. fold dir given. rewrite Hf. by destruct o.
  - repeat split. intros ->. unfold given.
    rewrite setContainerDirectory_twice. apply setContainerDirectory_same.
Qed.

(** C8, as amended. For a name that fails the grammar [getVolumePath]
    returns the invalid-name error and the host is untouched. For a name that
    matches, it makes one call of [os.Mkdir] on the join of the volume
    directory and the name: it returns that path when the call succeeds or
    reports that the directory exists, and the error of the call otherwise.
    So two successful calls with the same name return the same path, and a
    second call that finds the directory existing succeeds. *)
Theorem getVolumePath_resolves manager name w :
  let volumePath :=
    filepath_Join (Options.VolumeDirectory (Manager.Options manager)) name in
  (ValidACName_MatchString name = false →
     getVolumePath manager name w = (Err invalidVolumeNameError, w)) ∧
  (ValidACName_MatchString name = true →
     ∀ r w1,
       os_Mkdir volumePath mode_0755 w = (r, w1) →
       getVolumePath manager name w =
         (match r with
          | None => Ok volumePath
          | Some err => if os_IsExist err then Ok volumePath else Err err
          end, w1)) ∧
  (∀ path w1,
     getVolumePath manager name w = (Ok path, w1) →
     path = volumePath ∧
     ∀ err w2,
       os_Mkdir volumePath mode_0755 w1 = (Some err, w2) →
       os_IsExist err = true →
       getVolumePath manager name w1 = (Ok path, w2)).
Proof.
  intros volumePath. unfold getVolumePath. fold volumePath.
  split; [|split].
  - by intros ->.
  - intros -> r w1 ->. simpl. destruct r as [err|]; [|done].
    by destruct (os_IsExist err).
  - intros path w1. destruct (ValidACName_MatchString name); simpl; [|done].
    destruct (os_Mkdir volumePath mode_0755 w) as [[err|] w'] eqn:Hmk.
    + destruct (os_IsExist err); simpl; [|done].
      intros [= <- <-]. split; [done|]. by intros err2 w2 -> ->.
    + intros [= <- <-]. split; [done|]. by intros err2 w2 -> ->.
Qed.

End ManagerClaims.

(** ** random *)

Section RandomClaims.

Lemma alphabetSize_eq : alphabetSize = 62%Z.
Proof. reflexivity. Qed.

Lemma alphabet_length : length (bytes alphaNumericalCharacters) = 62.
Proof. reflexivity. Qed.

(** Every remainder modulo the size of the alphabet indexes a character of
    the alphabet: the index expression of the loop never panics. *)
Lemma index_alphabet (c : Byte.byte) :
  ∃ x, index alphaNumericalCharacters (byte_to_Z c `mod` alphabetSize)%Z
         = Some x
       ∧ x ∈ bytes alphaNumericalCharacters.
Proof.
  rewrite alphabetSize_eq.
  pose proof (Z.mod_pos_bound (byte_to_Z c) 62 eq_refl) as [Hlo Hhi].
  unfold index. rewrite decide_True by done.
  destruct (lookup_lt_is_Some_2 (bytes alphaNumericalCharacters)
              (Z.to_nat (byte_to_Z c `mod` 62))) as [x Hx].
  { rewrite alphabet_length. lia. }
  exists x. split; [done|]. by eapply list_elem_of_lookup_2.
Qed.

(** The loop, started at [i] with as many rounds as bytes remain, ends; it
    keeps the length and the bytes before [i], and every byte from [i] on is a
    character of the alphabet. *)
Lemma limitToAlphabet_spec todo : ∀ b i,
  i + todo = length b →
  ∃ b',
    limitToAlphabet b i todo = Some b' ∧
    length b' = length b ∧
    (∀ j, j < i → b' !! j = b !! j) ∧
    (∀ j y, i ≤ j → b' !! j = Some y → y ∈ bytes alphaNumericalCharacters).
Proof.
  induction todo as [|todo IH]; intros b i Hlen; simpl.
  - exists b. split_and!; try done.
    intros j y Hj Hy. apply lookup_lt_Some in Hy. lia.
  - destruct (lookup_lt_is_Some_2 b i) as [c Hc]; [lia|].
    rewrite Hc. simpl.
    destruct (index_alphabet c) as (x & Hx & Hin). rewrite Hx. simpl.
    destruct (IH (<[i := x]> b) (S i)) as (b' & Hrun & Hlen' & Hkeep & Hset).
    { rewrite length_insert. lia. }
    rewrite length_insert in Hlen'.
    exists b'. split_and!; try done.
    + intros j Hj. rewrite Hkeep by lia. apply list_lookup_insert_ne. lia.
    + intros j y Hj Hy. destruct (decide (j = i)) as [->|Hne].
      * rewrite Hkeep, list_lookup_insert_eq in Hy by lia. by simplify_eq.
      * apply (Hset j); [lia|done].
Qed.

Lemma rand_Read_length entropy b : length (rand_Read entropy b) = length b.
Proof.
  unfold rand_Read. rewrite length_app, length_take, length_drop. lia.
Qed.

Lemma string_of_list_byte_length l :
  String.length (String.string_of_list_byte l) = length l.
Proof.
  unfold String.string_of_list_byte.
  induction l as [|c l IH]; simpl; [done|]. by rewrite IH.
Qed.

(** C10. For every non-negative [n], whatever the random source delivers,
    [random n] returns a string of length [min n 32] whose bytes are all among
    the 62 bytes of [alphaNumericalCharacters]. No call returns a string
    longer than 32, and a call with [n] up to 32 that returns has returned
    exactly [n] characters. *)
Theorem random_alphanumeric :
  length (bytes alphaNumericalCharacters) = 62 ∧
  (∀ n entropy,
     (0 ≤ n)%Z →
     ∃ s, random n entropy = Some s ∧
          Z.of_nat (String.length s) = Z.min n 32 ∧
          Forall (λ c, c ∈ bytes alphaNumericalCharacters) (bytes s)) ∧
  (∀ n entropy s,
     random n entropy = Some s →
     String.length s ≤ 32 ∧
     ((n ≤ 32)%Z → Z.of_nat (String.length s) = n)).
Proof.
  assert (∀ n entropy,
     (0 ≤ n)%Z →
     ∃ s, random n entropy = Some s ∧
          Z.of_nat (String.length s) = Z.min n 32 ∧
          Forall (λ c, c ∈ bytes alphaNumericalCharacters) (bytes s))
    as Hreturns.
  { intros n entropy Hn. unfold random.
    set (m := if decide (n > 32)%Z then 32%Z else n).
    assert (m = Z.min n 32) as Hm by (unfold m; case_decide; lia).
    rewrite decide_False by lia.
    set (b := rand_Read entropy (replicate (Z.to_nat m) Byte.x00)).
    assert (length b = Z.to_nat m) as Hb
      by (unfold b; by rewrite rand_Read_length, length_replicate).
    destruct (limitToAlphabet_spec (length b) b 0)
      as (b' & -> & Hlen & _ & Hset); [done|].
    simpl. eexists. split; [reflexivity|].
    rewrite string_of_list_byte_length. split; [lia|].
    unfold bytes at 2. rewrite String.list_byte_of_string_of_list_byte.
    apply Forall_lookup. intros j y Hy. apply (Hset j); [lia|done]. }
  split; [reflexivity|]. split; [done|].
  intros n entropy s Hs.
  assert (0 ≤ n)%Z as Hn.
  { unfold random in Hs. destruct (decide (n > 32)%Z); [lia|].
    by destruct (decide (n < 0)%Z); [|lia]. }
  destruct (Hreturns n entropy Hn) as (s' & Hs' & Hlen & _).
  rewrite Hs in Hs'. injection Hs' as <-. lia.
Qed.

End RandomClaims.

(** * The statements on the sample host *)

Section SampleRuns.
#[local] Existing Instance Sample.handles.
#[local] Existing Instance Sample.imports.

(** The spec's example: required namespaces net and pid, a manifest with net
    shared with the host and pid isolated. *)
Example Validate_names_net :
  Validate (Sample.manager ["net"; "pid"])
    (Sample.manifest (Some (Sample.app (Sample.isolated "host" ""))))
  = Some
      "the manifest os/linux/namespaces isolator must require the net namespace".
Proof. vm_compute. reflexivity. Qed.

(** C1, the claim as stated fails: with the required kind "mnt", which is
    not checkable, a manifest that declares the isolator with every kind
    isolated is refused although no required kind is set to host-shared. *)
Lemma Validate_iff_host_shared_counterexample :
  let manager := Sample.manager ["mnt"] in
  let niso := Sample.namespaces "" "" in
  let a := Sample.app (Sample.isolated "" "") in
  let imageManifest := Sample.manifest (Some a) in
  ImageManifest.App imageManifest = Some a ∧
  (∃ iso, GetByName (App.Isolators a) LinuxNamespacesName = Some iso ∧
          Isolator.Value iso = LinuxNamespacesValue niso) ∧
  Validate manager imageManifest = Some internalServerError ∧
  ¬ ∃ ns, ns ∈ Options.RequiredNamespaces (Manager.Options manager) ∧
          hostShared niso ns = true.
Proof.
  split_and!.
  - reflexivity.
  - eexists. split; reflexivity.
  - vm_compute. reflexivity.
  - intros (ns & Hin & Hshared). simpl in Hin.
    apply list_elem_of_singleton in Hin as ->.
    vm_compute in Hshared. discriminate.
Qed.

Lemma Validate_required_namespaces_witness :
  is_Some
    (Validate (Sample.manager ["net"; "pid"])
       (Sample.manifest (Some (Sample.app (Sample.isolated "host" ""))))) ∧
  Validate (Sample.manager ["net"; "pid"])
    (Sample.manifest (Some (Sample.app []))) = None.
Proof.
  destruct (@Validate_required_namespaces Sample.handles Sample.imports)
    as [Hdeclared Homitted].
  split.
  - destruct (Hdeclared (Sample.manager ["net"; "pid"])
             (Sample.manifest (Some (Sample.app (Sample.isolated "host" ""))))
             (Sample.app (Sample.isolated "host" ""))
             {| Isolator.Name := "os/linux/namespaces";
                Isolator.Value :=
                  LinuxNamespacesValue (Sample.namespaces "host" "") |}
             (Sample.namespaces "host" "") eq_refl eq_refl eq_refl)
      as [[_ Hrefused] _].
    apply Hrefused. exists "net". split; [by left|]. right. vm_compute. reflexivity.
  - by apply (Homitted (Sample.manager ["net"; "pid"])
                (Sample.manifest (Some (Sample.app []))) (Sample.app [])).
Defined.

(** C4, the claim as stated fails: "bogus" is required and not checkable,
    yet the error is the isolation error for "net", which stands before it
    and is shared with the host. *)
Lemma Validate_internal_error_counterexample :
  let manager := Sample.manager ["net"; "bogus"] in
  let niso := Sample.namespaces "host" "" in
  let a := Sample.app (Sample.isolated "host" "") in
  let imageManifest := Sample.manifest (Some a) in
  ImageManifest.App imageManifest = Some a ∧
  (∃ iso, GetByName (App.Isolators a) LinuxNamespacesName = Some iso ∧
          Isolator.Value iso = LinuxNamespacesValue niso) ∧
  "bogus" ∈ Options.RequiredNamespaces (Manager.Options manager) ∧
  ("bogus" ∉ checkableKinds) ∧
  Validate manager imageManifest = Some (mustRequireError "net") ∧
  Validate manager imageManifest ≠ Some internalServerError.
Proof.
  split_and!.
  - reflexivity.
  - eexists. split; reflexivity.
  - simpl. right. by left.
  - compute_done.
  - vm_compute. reflexivity.
  - vm_compute. discriminate.
Qed.

Lemma Validate_unchecked_kind_witness :
  ("bogus" ∉ checkableKinds) ∧
  Validate (Sample.manager ["bogus"; "net"])
    (Sample.manifest (Some (Sample.app (Sample.isolated "host" ""))))
  = Some internalServerError.
Proof.
  assert ("bogus" ∉ checkableKinds) as Hbogus by compute_done.
  split; [done|].
  destruct (Validate_unchecked_kind (Sample.manager ["bogus"; "net"])
              (Sample.manifest (Some (Sample.app (Sample.isolated "host" ""))))
              (Sample.app (Sample.isolated "host" ""))
              {| Isolator.Name := "os/linux/namespaces";
                 Isolator.Value :=
                   LinuxNamespacesValue (Sample.namespaces "host" "") |}
              (Sample.namespaces "host" "")
              [] "bogus" ["net"])
    as (_ & Hinternal & _); [reflexivity..|exact Hbogus|].
  apply Hinternal; constructor.
Defined.

(** C2, the claim as stated fails: the manifest has an App and the hash is
    well formed, but the App shares the required net namespace with the
    host, so [Create] with an empty name returns the isolation error and no
    container. *)
Lemma Create_blank_name_counterexample :
  let manager := Sample.manager ["net"] in
  let a := Sample.app (Sample.isolated "host" "") in
  let imageManifest := Sample.manifest (Some a) in
  ImageManifest.App imageManifest = Some a ∧
  NewHash "sha512-abc" = Ok "sha512-abc" ∧
  Create manager "" imageManifest "sha512-abc" "6ba7b810"
    = (Err (mustRequireError "net"), manager).
Proof. split_and!; [reflexivity|reflexivity|vm_compute; reflexivity]. Qed.

(** The spec's example: the blank name becomes "app". *)
Lemma Create_blank_name_witness :
  ∃ container manager',
    Create (Sample.manager ["net"]) ""
      (Sample.manifest (Some (Sample.app (Sample.isolated "" ""))))
      "sha512-abc" "6ba7b810" = (Ok container, manager') ∧
    RuntimeApp.Name <$> PodManifest.Apps (Container.pod container) = ["app"] ∧
    RuntimeImage.ID ∘ RuntimeApp.Image
      <$> PodManifest.Apps (Container.pod container) = ["sha512-abc"].
Proof.
  destruct (Create_blank_name (Sample.manager ["net"])
              (Sample.manifest (Some (Sample.app (Sample.isolated "" ""))))
              (Sample.app (Sample.isolated "" ""))
              "sha512-abc" "sha512-abc" "app" "6ba7b810")
    as (container & manager' & Hcreate & Happs & _).
  - reflexivity.
  - reflexivity.
  - vm_compute. reflexivity.
  - reflexivity.
  - exists container, manager'. split; [done|]. by rewrite Happs.
Defined.

Lemma Create_error_leaves_manager_witness :
  let manager := Sample.manager ["net"] in
  let imageManifest := Sample.manifest (Some (Sample.app [])) in
  Create manager "web" imageManifest "md5-abc" "6ba7b810"
    = (Err "badly formatted hash string", manager) ∧
  NewHash "md5-abc" = Err "badly formatted hash string".
Proof.
  split; [vm_compute; reflexivity|].
  destruct (Create_error_leaves_manager (Sample.manager ["net"]) "web"
              (Sample.manifest (Some (Sample.app []))) "md5-abc" "6ba7b810"
              "badly formatted hash string" (Sample.manager ["net"]))
    as (_ & _ & [Hv|[[_ Hh]|(_ & _ & Hname & _)]]).
  - vm_compute. reflexivity.
  - vm_compute in Hv. discriminate.
  - exact Hh.
  - discriminate.
Defined.

Lemma Validate_Create_missing_App_witness :
  Validate (Sample.manager ["net"]) (Sample.manifest None)
    = Some missingAppError ∧
  Create (Sample.manager ["net"]) "web" (Sample.manifest None)
    "sha512-abc" "6ba7b810"
    = (Err missingAppError, Sample.manager ["net"]).
Proof.
  apply (Validate_Create_missing_App (Sample.manager ["net"]) "web"
           (Sample.manifest None) "sha512-abc" "6ba7b810").
  reflexivity.
Defined.

Lemma NewManager_checks_then_creates_witness :
  fst (NewManager (handles := Sample.handles) () () (Sample.options [])
         {| Sample.cgroupsMounted := false; Sample.directories := [];
            Sample.readOnly := false |})
    = Err "failed to check cgroups: cgroups not mounted" ∧
  ∃ manager,
    NewManager (handles := Sample.handles) () () (Sample.options ["net"]) (Sample.host [] false)
      = (Ok manager, Sample.host [] false) ∧
    Manager.containers manager = ∅.
Proof.
  split.
  - destruct (NewManager_checks_then_creates (handles := Sample.handles) () () (Sample.options [])
                {| Sample.cgroupsMounted := false; Sample.directories := [];
                   Sample.readOnly := false |}) as (Hunsupported & _ & _).
    by rewrite (Hunsupported "cgroups not mounted" _ eq_refl).
  - destruct (NewManager_checks_then_creates (handles := Sample.handles) () () (Sample.options ["net"])
                (Sample.host [] false)) as (_ & _ & Hready).
    destruct (Hready (Sample.host [] false) "kurma" (Sample.host [] false))
      as (manager & Hnew & Hempty & _); [reflexivity..|].
    by exists manager.
Defined.

Lemma remove_absent_idempotent_witness :
  Container (Sample.manager []) "6ba7b810" = None ∧
  remove (Sample.manager []) (Sample.container "6ba7b810")
    = Sample.manager [].
Proof.
  split; [reflexivity|].
  destruct (remove_absent_idempotent (Sample.manager [])
              (Sample.container "6ba7b810")) as (Habsent & _).
  apply Habsent. reflexivity.
Defined.

Lemma SwapDirectory_restores_witness :
  SwapDirectory (Sample.manager []) "/tmp/bundle"
    (λ manager, (Panicked "unpack failed", manager))
  = (Panicked "unpack failed", Sample.manager []).
Proof.
  destruct (SwapDirectory_restores (Sample.manager []) "/tmp/bundle"
              (λ manager, (Panicked "unpack failed", manager)))
    as (_ & _ & Hrun).
  destruct (Hrun (Panicked "unpack failed")
              (setContainerDirectory "/tmp/bundle" (Sample.manager []))
              eq_refl)
    as (final & Hswap & _ & _ & _ & _ & _ & Hframe).
  by rewrite Hswap, Hframe.
Defined.

(** C8, the claim as stated fails: "data" matches the grammar, but on a
    read-only host the directory cannot be made and [getVolumePath] returns
    the error of [os.Mkdir] in place of the path. *)
Lemma getVolumePath_valid_name_counterexample :
  ValidACName_MatchString "data" = true ∧
  os_IsExist "read-only file system" = false ∧
  getVolumePath (Sample.manager []) "data" (Sample.host [] true)
    = (Err "read-only file system", Sample.host [] true).
Proof. split_and!; vm_compute; reflexivity. Qed.

Lemma getVolumePath_resolves_witness :
  let w1 := Sample.host ["/var/kurma/volumes/data"] false in
  ValidACName_MatchString "data" = true ∧
  getVolumePath (Sample.manager []) "data" (Sample.host [] false)
    = (Ok "/var/kurma/volumes/data", w1) ∧
  getVolumePath (Sample.manager []) "data" w1
    = (Ok "/var/kurma/volumes/data", w1).
Proof.
  intros w1.
  destruct (getVolumePath_resolves (Sample.manager []) "data"
              (Sample.host [] false)) as (_ & Hvalid & Hagain).
  assert (getVolumePath (Sample.manager []) "data" (Sample.host [] false)
            = (Ok "/var/kurma/volumes/data", w1)) as Hfirst
    by exact (Hvalid eq_refl None w1 eq_refl).
  split_and!; [reflexivity|exact Hfirst|].
  destruct (Hagain _ _ Hfirst) as [_ Hsecond].
  apply (Hsecond "file exists" w1); reflexivity.
Defined.

Lemma random_alphanumeric_witness :
  ∃ s, random 40 [Byte.xff; Byte.x3e; Byte.x3d] = Some s ∧
       Z.of_nat (String.length s) = 32%Z.
Proof.
  destruct random_alphanumeric as (_ & Hreturns & _).
  destruct (Hreturns 40%Z [Byte.xff; Byte.x3e; Byte.x3d])
    as (s & Hs & Hlen & _); [lia|].
  exists s. split; [done|]. lia.
Defined.

Example random_sample :
  random 5 [Byte.xff; Byte.x3e; Byte.x3d] = Some "70z00".
Proof. vm_compute. reflexivity. Qed.

Example random_negative : random (-1) [] = None.
Proof. reflexivity. Qed.

End SampleRuns.

(** * Further properties of the container manager *)

Section ValidateFurther.
Context {handles : Handles} {imports : Imports}.

(** The error of the loop is that of the first kind of the list that is not
    checkable or is shared with the host. *)
Lemma validateRequired_Some niso required e :
  validateRequired niso required = Some e →
  ∃ before ns after,
    required = before ++ ns :: after ∧
    Forall (λ k, k ∈ checkableKinds ∧ hostShared niso k = false) before ∧
    (((ns ∉ checkableKinds) ∧ e = internalServerError) ∨
     (hostShared niso ns = true ∧ e = mustRequireError ns)).
Proof.
  induction required as [|k required IH]; [done|].
  rewrite validateRequired_cons. case_bool_decide as Hk.
  - destruct (hostShared niso k) eqn:Hshared.
    + intros [= <-]. exists [], k, required. by auto.
    + intros (before & ns & after & -> & Hbefore & Hns)%IH.
      exists (k :: before), ns, after. by auto.
  - intros [= <-]. exists [], k, required. by auto.
Qed.

(** [Validate] reads the manager only through its required namespaces. *)
Lemma Validate_required_only manager manager' imageManifest :
  Options.RequiredNamespaces (Manager.Options manager')
    = Options.RequiredNamespaces (Manager.Options manager) →
  Validate manager' imageManifest = Validate manager imageManifest.
Proof. intros Heq. unfold Validate. by rewrite Heq. Qed.

(** X1. Requiring fewer namespaces never turns an accepted manifest into a
    refused one: a manifest accepted under a list of required namespaces is
    accepted under every list whose kinds all occur in it (so also under a
    reordering of it, or with repetitions dropped). *)
Theorem Validate_fewer_required manager manager' imageManifest :
  Options.RequiredNamespaces (Manager.Options manager)
    ⊆ Options.RequiredNamespaces (Manager.Options manager') →
  Validate manager' imageManifest = None →
  Validate manager imageManifest = None.
Proof.
  intros Hsub. unfold Validate.
  destruct (ImageManifest.App imageManifest) as [app|]; [|done].
  destruct (GetByName _ _) as [iso|]; [|done].
  destruct (Isolator.Value iso) as [niso|]; [|done].
  rewrite !validateRequired_None, !Forall_forall. by auto.
Qed.

(** X2. Every error of [Validate] is the missing-App error of a manifest
    without an App, or comes from the first required kind, in list order,
    that is not checkable (the internal error) or that the namespaces
    isolator shares with the host (the error naming that kind): every kind
    listed before it is checkable and not shared. *)
Theorem Validate_error_first_offender manager imageManifest e :
  Validate manager imageManifest = Some e →
  (ImageManifest.App imageManifest = None ∧ e = missingAppError) ∨
  ∃ app iso niso before ns after,
    ImageManifest.App imageManifest = Some app ∧
    GetByName (App.Isolators app) LinuxNamespacesName = Some iso ∧
    Isolator.Value iso = LinuxNamespacesValue niso ∧
    Options.RequiredNamespaces (Manager.Options manager)
      = before ++ ns :: after ∧
    Forall (λ k, k ∈ checkableKinds ∧ hostShared niso k = false) before ∧
    (((ns ∉ checkableKinds) ∧ e = internalServerError) ∨
     (hostShared niso ns = true ∧ e = mustRequireError ns)).
Proof.
  unfold Validate.
  destruct (ImageManifest.App imageManifest) as [app|] eqn:Happ.
  2: { intros [= <-]. by left. }
  destruct (GetByName _ _) as [iso|] eqn:Hiso; [|done].
  destruct (Isolator.Value iso) as [niso|] eqn:Hval; [|done].
  intros (before & ns & after & Hreq & Hbefore & Hns)%validateRequired_Some.
  right. exists app, iso, niso, before, ns, after. by auto.
Qed.

(** X3. [Validate] accepts a manifest exactly when it has an App and either
    the App has no namespaces isolator, or the isolator under that name holds
    a value of another type, or every required kind is checkable and not
    shared with the host. In particular an empty list of required namespaces
    refuses only the manifests without an App. *)
Theorem Validate_accepts_iff manager imageManifest :
  Validate manager imageManifest = None ↔
  ∃ app,
    ImageManifest.App imageManifest = Some app ∧
    match GetByName (App.Isolators app) LinuxNamespacesName with
    | None => True
    | Some iso =>
        match Isolator.Value iso with
        | OtherIsolatorValue _ => True
        | LinuxNamespacesValue niso =>
            Forall (λ ns, ns ∈ checkableKinds ∧ hostShared niso ns = false)
              (Options.RequiredNamespaces (Manager.Options manager))
        end
    end.
Proof.
  unfold Validate.
  destruct (ImageManifest.App imageManifest) as [app|].
  2: { split; [done|]. by intros (app & [=] & _). }
  split.
  - intros Hv. exists app. split; [done|].
    destruct (GetByName _ _) as [iso|]; [|done].
    destruct (Isolator.Value iso) as [niso|]; [|done].
    by apply validateRequired_None.
  - intros (app' & [= <-] & Hok).
    destruct (GetByName _ _) as [iso|]; [|done].
    destruct (Isolator.Value iso) as [niso|]; [|done].
    by apply validateRequired_None.
Qed.

End ValidateFurther.

Section RegistryFurther.
Context {handles : Handles} {imports : Imports}.

(** What a successful [Create] has done. *)
Lemma Create_Ok_inv
    manager name imageManifest imageHash uuid container manager' :
  Create manager name imageManifest imageHash uuid = (Ok container, manager') →
  ∃ hash n,
    Validate manager imageManifest = None ∧
    NewHash imageHash = Ok hash ∧
    (if decide (name = "")
     then convertACIdentifierToACName (ImageManifest.Name imageManifest)
     else Ok name) = Ok n ∧
    Container.uuid container = uuid ∧
    Container.imageHash container = imageHash ∧
    Container.image container = imageManifest ∧
    Container.log container
      = SetField "container" uuid (Clone (Manager.Log manager)) ∧
    PodManifest.Apps (Container.pod container) =
      [ {| RuntimeApp.Name := n;
           RuntimeApp.App := ImageManifest.App imageManifest;
           RuntimeApp.Image :=
             {| RuntimeImage.ID := hash;
                RuntimeImage.Name := Some (ImageManifest.Name imageManifest);
                RuntimeImage.Labels := ImageManifest.Labels imageManifest |}
        |} ] ∧
    PodManifest.Annotations (Container.pod container)
      = ImageManifest.Annotations imageManifest ∧
    manager' =
      setContainers (<[uuid := container]> (Manager.containers manager))
        manager.
Proof.
  unfold Create.
  destruct (Validate manager imageManifest) as [e|]; [done|].
  destruct (NewHash imageHash) as [hash|e]; [|done].
  destruct (if decide (name = "") then _ else _) as [n|e] eqn:Hn; [|done].
  simpl. intros [= <- <-]. exists hash, n. by split_and!.
Qed.

(** A failed [Create] hands back the manager it was given. *)
Lemma Create_error_cases_same
    manager name imageManifest imageHash uuid e manager' :
  Create manager name imageManifest imageHash uuid = (Err e, manager') →
  manager' = manager.
Proof.
  unfold Create.
  destruct (Validate manager imageManifest); [by intros [= _ <-]|].
  destruct (NewHash imageHash); [|by intros [= _ <-]].
  destruct (if decide (name = "") then _ else _); [done|by intros [= _ <-]].
Qed.

Lemma Create_Options manager name imageManifest imageHash uuid :
  Manager.Options (Create manager name imageManifest imageHash uuid).2
    = Manager.Options manager.
Proof.
  destruct (Create manager name imageManifest imageHash uuid)
    as [[container|e] manager'] eqn:Hc; simpl.
  - apply Create_Ok_inv
      in Hc as (hash & n & _ & _ & _ & _ & _ & _ & _ & _ & _ & ->).
    reflexivity.
  - by apply Create_error_cases_same in Hc as ->.
Qed.

(** X4. No operation of the manager changes what [Validate] answers: the
    verdict on every manifest is the same after a [Create] (failed or not), a
    [remove], each of the setters, and inside a [SwapDirectory]. *)
Theorem Validate_stable manager imageManifest :
  (∀ name image imageHash uuid,
     Validate (Create manager name image imageHash uuid).2 imageManifest
       = Validate manager imageManifest) ∧
  (∀ container,
     Validate (remove manager container) imageManifest
       = Validate manager imageManifest) ∧
  (∀ log,
     Validate (SetLog manager log) imageManifest
       = Validate manager imageManifest) ∧
  (∀ hostSocketFile,
     Validate (SetHostSocketFile manager hostSocketFile) imageManifest
       = Validate manager imageManifest) ∧
  (∀ networkManager,
     Validate (SetNetworkManager manager networkManager) imageManifest
       = Validate manager imageManifest) ∧
  (∀ containerDirectory,
     Validate (setContainerDirectory containerDirectory manager) imageManifest
       = Validate manager imageManifest).
Proof.
  split_and!; try done.
  intros name image imageHash uuid.
  apply Validate_required_only. by rewrite Create_Options.
Qed.

(** X5. [Create] returns a container exactly when [Validate] accepts the
    manifest, the hash parses, and, for a blank name only, the declared name
    of the image normalizes. *)
Theorem Create_succeeds_iff manager name imageManifest imageHash uuid :
  (∃ container manager',
     Create manager name imageManifest imageHash uuid
       = (Ok container, manager')) ↔
  Validate manager imageManifest = None ∧
  (∃ hash, NewHash imageHash = Ok hash) ∧
  (name = "" →
   ∃ n, convertACIdentifierToACName (ImageManifest.Name imageManifest)
          = Ok n).
Proof.
  split.
  - intros (container & manager' & Hc).
    apply Create_Ok_inv in Hc as (hash & n & Hv & Hh & Hn & _).
    split_and!; [done|by exists hash|].
    intros ->. exists n. by rewrite decide_True in Hn.
  - intros (Hv & [hash Hh] & Hn). unfold Create. rewrite Hv, Hh.
    destruct (decide (name = "")) as [Hblank|Hname].
    + destruct (Hn Hblank) as [n ->]. simpl. by eexists _, _.
    + simpl. by eexists _, _.
Qed.

(** X6. A name that is not blank is taken as it stands: [Create] neither
    normalizes it nor matches it against the naming grammar, and the runtime
    app of the pod carries exactly that name. *)
Theorem Create_supplied_name
    manager name imageManifest imageHash hash uuid :
  name ≠ "" →
  Validate manager imageManifest = None →
  NewHash imageHash = Ok hash →
  ∃ container manager',
    Create manager name imageManifest imageHash uuid
      = (Ok container, manager') ∧
    RuntimeApp.Name <$> PodManifest.Apps (Container.pod container) = [name].
Proof.
  intros Hname Hv Hh. unfold Create.
  rewrite Hv, Hh, decide_False by done. simpl. by eexists _, _.
Qed.

(** X7. A successful [Create] registers the container under the identity
    drawn and touches nothing else: every other identity resolves as before,
    and the options, the logger, the collaborators, the cgroup and the socket
    file of the manager are unchanged. *)
Theorem Create_registers
    manager name imageManifest imageHash uuid container manager' :
  Create manager name imageManifest imageHash uuid = (Ok container, manager') →
  Container.uuid container = uuid ∧
  Container manager' uuid = Some container ∧
  (∀ other, other ≠ uuid → Container manager' other = Container manager other) ∧
  Manager.Options manager' = Manager.Options manager ∧
  Manager.Log manager' = Manager.Log manager ∧
  Manager.imageManager manager' = Manager.imageManager manager ∧
  Manager.networkManager manager' = Manager.networkManager manager ∧
  Manager.cgroup manager' = Manager.cgroup manager ∧
  Manager.HostSocketFile manager' = Manager.HostSocketFile manager.
Proof.
  intros (hash & n & _ & _ & _ & Huuid & _ & _ & _ & _ & _ & ->)%Create_Ok_inv.
  unfold Container. simpl. split_and!; try done.
  - apply lookup_insert_eq.
  - intros other Hother. by apply lookup_insert_ne.
Qed.

(** X8. [Create] does not look the identity up before it registers: on an
    identity that is registered already the new container takes the place of
    the old one and the registry keeps its size; on a fresh identity the
    registry grows by one. *)
Theorem Create_collision
    manager name imageManifest imageHash uuid container manager' :
  Create manager name imageManifest imageHash uuid = (Ok container, manager') →
  (∀ old, Container manager uuid = Some old →
     Container manager' uuid = Some container ∧
     size (Manager.containers manager') = size (Manager.containers manager)) ∧
  (Container manager uuid = None →
     size (Manager.containers manager')
       = S (size (Manager.containers manager))).
Proof.
  intros (hash & n & _ & _ & _ & Huuid & _ & _ & _ & _ & _ & ->)%Create_Ok_inv.
  unfold Container. simpl. split.
  - intros old Hold. split; [apply lookup_insert_eq|].
    apply map_size_insert_Some. by exists old.
  - intros Hfresh. by apply map_size_insert_None.
Qed.

(** X9. Removing the container that a [Create] on a fresh identity has just
    returned gives back the manager from before the [Create]. *)
Theorem Create_then_remove
    manager name imageManifest imageHash uuid container manager' :
  Container manager uuid = None →
  Create manager name imageManifest imageHash uuid = (Ok container, manager') →
  remove manager' container = manager.
Proof.
  intros Hfresh.
  intros (hash & n & _ & _ & _ & Huuid & _ & _ & _ & _ & _ & ->)%Create_Ok_inv.
  unfold remove. rewrite setContainers_twice, Huuid. simpl.
  rewrite delete_insert_id by done. apply setContainers_same.
Qed.

(** X10. [Containers] lists exactly the registered containers, each
    registration once: a container is in the list if and only if some
    identity resolves to it, and the list is as long as the registry is
    large. *)
Theorem Containers_registered manager :
  (∀ container,
     container ∈ Containers manager ↔
     ∃ uuid, Container manager uuid = Some container) ∧
  length (Containers manager) = size (Manager.containers manager).
Proof.
  unfold Containers, Container. split.
  - intros container. rewrite list_elem_of_fmap. split.
    + intros ([uuid c] & -> & Hin). exists uuid.
      by apply elem_of_map_to_list.
    + intros (uuid & Hin). exists (uuid, container). split; [done|].
      by apply elem_of_map_to_list.
  - by rewrite length_fmap, length_map_to_list.
Qed.

(** X11. Up to order, a [Create] on a fresh identity adds the new container
    to the list of [Containers] and keeps the others, and a [remove] of a
    registered identity takes exactly the container registered under it out
    of the list. *)
Theorem Containers_Create_remove manager :
  (∀ name imageManifest imageHash uuid container manager',
     Container manager uuid = None →
     Create manager name imageManifest imageHash uuid
       = (Ok container, manager') →
     Containers manager' ≡ₚ container :: Containers manager) ∧
  (∀ container registered,
     Container manager (Container.uuid container) = Some registered →
     Containers manager
       ≡ₚ registered :: Containers (remove manager container)).
Proof.
  unfold Containers, Container. split.
  - intros name imageManifest imageHash uuid container manager' Hfresh.
    intros (hash & n & _ & _ & _ & _ & _ & _ & _ & _ & _ & ->)%Create_Ok_inv.
    simpl. by rewrite map_to_list_insert.
  - intros container registered Hreg. simpl.
    by rewrite <- (map_to_list_delete _ _ _ Hreg).
Qed.

(** X12. [remove] goes by the identity alone: two containers with the same
    identity remove the same registration, whatever else they hold; and two
    removals give the same manager in either order. *)
Theorem remove_by_identity manager c1 c2 :
  (Container.uuid c1 = Container.uuid c2 →
     remove manager c1 = remove manager c2) ∧
  remove (remove manager c1) c2 = remove (remove manager c2) c1.
Proof.
  unfold remove. split.
  - by intros ->.
  - rewrite !setContainers_twice. simpl. by rewrite delete_delete.
Qed.

(** X13. [SetLog] decides the logger of the containers created after it and
    leaves the registered ones alone: a container created on the manager
    after [SetLog log] logs through a clone of [log] with its identity as the
    "container" field, and every identity resolves after [SetLog] to the
    container it resolved to before. *)
Theorem SetLog_later_containers manager log :
  (∀ uuid, Container (SetLog manager log) uuid = Container manager uuid) ∧
  (∀ name imageManifest imageHash uuid container manager',
     Create (SetLog manager log) name imageManifest imageHash uuid
       = (Ok container, manager') →
     Container.log container = SetField "container" uuid (Clone log) ∧
     Manager.Log manager' = log).
Proof.
  split; [done|].
  intros name imageManifest imageHash uuid container manager'.
  intros (hash & n & _ & _ & _ & _ & _ & _ & Hlog & _ & _ & ->)%Create_Ok_inv.
  by split.
Qed.

(** X14. A [SwapDirectory] nested in another behaves as the inner one alone:
    the function runs with the inner directory, and afterwards the directory
    is the one from before the outer call. *)
Theorem SwapDirectory_nested manager outer inner f :
  SwapDirectory manager outer (λ manager, SwapDirectory manager inner f)
    = SwapDirectory manager inner f.
Proof.
  unfold SwapDirectory. simpl.
  rewrite setContainerDirectory_twice.
  destruct (f (setContainerDirectory inner manager)) as [[|v] left]; simpl;
    by rewrite setContainerDirectory_twice.
Qed.


End RegistryFurther.

(** * Further properties of the network helpers *)

Section RandomFurther.

Lemma bytes_length s : length (bytes s) = String.length s.
Proof.
  unfold bytes, String.list_byte_of_string. rewrite length_map.
  induction s as [|a s IH]; simpl; [done|]. by rewrite IH.
Qed.

Lemma string_of_list_byte_app l1 l2 :
  String.string_of_list_byte (l1 ++ l2)
    = String.string_of_list_byte l1 +:+ String.string_of_list_byte l2.
Proof.
  unfold String.string_of_list_byte.
  induction l1 as [|c l1 IH]; simpl; [done|]. by rewrite IH.
Qed.

(** What [rand.Read] leaves in a fresh buffer of [k] bytes. *)
Lemma rand_Read_fresh entropy k :
  rand_Read entropy (replicate k Byte.x00)
    = take k (entropy ++ replicate k Byte.x00).
Proof.
  unfold rand_Read. rewrite length_replicate, drop_replicate.
  destruct (decide (k ≤ length entropy)) as [Hle|Hgt].
  - rewrite take_app_le by done.
    replace (k - length entropy) with 0 by lia. simpl. by rewrite app_nil_r.
  - rewrite take_app_ge, take_replicate, take_ge by lia.
    do 2 f_equal. lia.
Qed.

(** The loop stores at each index from [i] on the character chosen for the
    byte that stood there. *)
Lemma limitToAlphabet_pointwise todo : ∀ b i b',
  i + todo = length b →
  limitToAlphabet b i todo = Some b' →
  ∀ j c, i ≤ j → b !! j = Some c →
    b' !! j
      = index alphaNumericalCharacters (byte_to_Z c `mod` alphabetSize)%Z.
Proof.
  induction todo as [|todo IH]; intros b i b' Hlen Hrun j c Hj Hc.
  - apply lookup_lt_Some in Hc. lia.
  - simpl in Hrun.
    destruct (b !! i) as [ci|] eqn:Hci; [simpl in Hrun|done].
    destruct (index_alphabet ci) as (x & Hx & _).
    rewrite Hx in Hrun. simpl in Hrun.
    destruct (decide (j = i)) as [->|Hne].
    + destruct (limitToAlphabet_spec todo (<[i := x]> b) (S i))
        as (b'' & Hrun' & _ & Hkeep & _).
      { rewrite length_insert. lia. }
      rewrite Hrun in Hrun'. injection Hrun' as <-.
      rewrite Hkeep, list_lookup_insert_eq by (lia || by eapply lookup_lt_Some).
      by simplify_eq.
    + apply (IH (<[i := x]> b) (S i)); [|done|lia|].
      * rewrite length_insert. lia.
      * by rewrite list_lookup_insert_ne.
Qed.

(** The bytes of the string that [random] returns, index by index. *)
Lemma random_bytes n entropy :
  (0 ≤ n)%Z →
  let k := Z.to_nat (Z.min n 32) in
  ∃ b',
    random n entropy = Some (String.string_of_list_byte b') ∧
    length b' = k ∧
    ∀ j c,
      take k (entropy ++ replicate k Byte.x00) !! j = Some c →
      b' !! j
        = index alphaNumericalCharacters (byte_to_Z c `mod` alphabetSize)%Z.
Proof.
  intros Hn k. unfold random.
  set (m := if decide (n > 32)%Z then 32%Z else n).
  assert (Z.to_nat m = k) as -> by (unfold m, k; case_decide; lia).
  rewrite decide_False by (unfold m; case_decide; lia).
  rewrite rand_Read_fresh.
  set (b := take k (entropy ++ replicate k Byte.x00)).
  destruct (limitToAlphabet_spec (length b) b 0)
    as (b' & Hrun & Hlen & _); [done|].
  rewrite Hrun. simpl. exists b'. split_and!; [done| |].
  - rewrite Hlen. unfold b.
    rewrite length_take, length_app, length_replicate. lia.
  - intros j c Hc.
    apply (limitToAlphabet_pointwise (length b) b 0); [done|done|lia|done].
Qed.

(** X16. [random] is a bytewise translation of what the random source
    delivered: for a non-negative [n] it returns the string whose byte at
    each index is the character of the alphabet at the source byte modulo
    62, over the first [min n 32] bytes of the source, a source that ran
    short counting as zero bytes from there on. *)
Theorem random_closed_form n entropy :
  (0 ≤ n)%Z →
  let k := Z.to_nat (Z.min n 32) in
  ∃ s,
    random n entropy = Some s ∧
    Forall2
      (λ c x,
         index alphaNumericalCharacters (byte_to_Z c `mod` alphabetSize)%Z
           = Some x)
      (take k (entropy ++ replicate k Byte.x00)) (bytes s).
Proof.
  intros Hn k.
  destruct (random_bytes n entropy Hn) as (b' & Hrun & Hlen & Hpoint).
  fold k in Hlen, Hpoint.
  exists (String.string_of_list_byte b'). split; [done|].
  unfold bytes. rewrite String.list_byte_of_string_of_list_byte.
  apply Forall2_same_length_lookup. split.
  - rewrite Hlen, length_take, length_app, length_replicate. lia.
  - intros j c x Hc Hx. by rewrite <- (Hpoint j c Hc).
Qed.


(** X18. The translation is biased: of the 256 values of a byte, five fall
    on each of the first eight characters of the alphabet (0 to 7) and four
    on each of the other 54, so the first eight are drawn more often; and
    every character of the alphabet can be drawn. *)
Theorem random_modulo_bias :
  (∀ c, c ∈ allBytes) ∧
  NoDup allBytes ∧
  ∀ k, k < 62 →
    length
      (filter (λ c, (byte_to_Z c `mod` alphabetSize)%Z = Z.of_nat k) allBytes)
      = if decide (k < 8) then 5 else 4.
Proof.
  split_and!.
  - intros c. by destruct c; compute_done.
  - compute_done.
  - assert (Forall
              (λ k,
                 length
                   (filter
                      (λ c, (byte_to_Z c `mod` alphabetSize)%Z = Z.of_nat k)
                      allBytes)
                   = if decide (k < 8) then 5 else 4) (seq 0 62))
      as Hall by compute_done.
    intros k Hk. rewrite Forall_forall in Hall. apply Hall.
    apply elem_of_seq. lia.
Qed.

End RandomFurther.

Section InterfaceNamesFurther.
Context {handles : Handles} {templates : TemplateImports}.

(** X19. The template function [shortuuid] panics on a container whose
    identity has fewer than eight bytes, and otherwise gives the first eight
    bytes of the identity. *)
Theorem shortuuid_prefix container interfaces :
  let uuid := Container.uuid container in
  let short := FuncMap.shortuuid (funcsForContainer container interfaces) () in
  (String.length uuid < 8 → short = None) ∧
  (8 ≤ String.length uuid →
     ∃ s rest, short = Some s ∧ String.length s = 8 ∧ uuid = s +:+ rest).
Proof.
  intros uuid short. unfold short. simpl. fold uuid. unfold slice_to.
  rewrite bytes_length. split.
  - intros Hshort. by rewrite decide_False by lia.
  - intros Hlong. rewrite decide_True by done.
    exists (String.string_of_list_byte (take 8 (bytes uuid))),
           (String.string_of_list_byte (drop 8 (bytes uuid))).
    split_and!; [done| |].
    + rewrite string_of_list_byte_length, length_take, bytes_length. lia.
    + rewrite <- string_of_list_byte_app, take_drop.
      unfold bytes. by rewrite String.string_of_list_byte_of_string.
Qed.

Lemma checkUnique_None cint interfaces :
  checkUnique cint interfaces = None ↔
  cint ∉ IPResult.ContainerInterface <$> interfaces.
Proof.
  induction interfaces as [|res interfaces IH]; simpl.
  - split; [intros _; apply not_elem_of_nil|done].
  - rewrite not_elem_of_cons.
    case_decide; [|rewrite IH]; intuition (discriminate || congruence).
Qed.

Lemma checkUnique_Some cint interfaces e :
  checkUnique cint interfaces = Some e → e = notUniqueError cint.
Proof.
  induction interfaces as [|res interfaces IH]; simpl; [done|].
  case_decide; [by intros [= <-]|done].
Qed.

(** X20. [generateInterfaceName] never returns a name that one of the
    interfaces given already has: it returns [cint] exactly when the
    template parses, its execution gives [cint], and no interface has that
    name. When the name rendered is taken, the result is the not-unique
    error, not another name. *)
Theorem generateInterfaceName_unique
    containerInterface container interfaces entropy :
  (∀ cint,
     generateInterfaceName containerInterface container interfaces entropy
       = Ok cint ↔
     ∃ tmpl,
       template_Parse (funcsForContainer container interfaces)
         containerInterface = Ok tmpl ∧
       template_Execute tmpl entropy = Ok cint ∧
       cint ∉ IPResult.ContainerInterface <$> interfaces) ∧
  (∀ tmpl cint,
     template_Parse (funcsForContainer container interfaces)
       containerInterface = Ok tmpl →
     template_Execute tmpl entropy = Ok cint →
     cint ∈ IPResult.ContainerInterface <$> interfaces →
     generateInterfaceName containerInterface container interfaces entropy
       = Err (notUniqueError cint)).
Proof.
  unfold generateInterfaceName. split.
  - intros cint. split.
    + destruct (template_Parse _ _) as [tmpl|e]; [|done].
      destruct (template_Execute tmpl entropy) as [c|e] eqn:Hexec; [|done].
      destruct (checkUnique c interfaces) eqn:Hunique; [done|].
      intros [= <-]. exists tmpl. split_and!; [done..|].
      by apply checkUnique_None.
    + intros (tmpl & -> & -> & Hfree).
      apply checkUnique_None in Hfree. by rewrite Hfree.
  - intros tmpl cint -> -> Htaken.
    destruct (checkUnique cint interfaces) as [e|] eqn:Hunique.
    + by apply checkUnique_Some in Hunique as ->.
    + by apply checkUnique_None in Hunique.
Qed.

End InterfaceNamesFurther.

(** * The boot sequence *)

Section BootFurther.
Context {imports : Boot.Imports}.

Lemma runSetup_None fs : ∀ r r',
  Boot.runSetup fs r = (None, r') ↔ Boot.succeed fs r r'.
Proof.
  induction fs as [|f fs IH]; intros r r'; simpl.
  - split; [intros [= <-]; constructor|by inversion 1].
  - destruct (Boot.call f r) as [[err|] r1] eqn:Hcall.
    + split; [done|]. inversion 1; congruence.
    + rewrite IH. split.
      * intros Hrest. by econstructor.
      * intros Hall. inversion Hall as [|? ? ? r2 ? Hc Hrest]; subst.
        rewrite Hcall in Hc. by injection Hc as <-.
Qed.

Lemma runSetup_Some fs : ∀ r e r',
  Boot.runSetup fs r = (Some e, r') ↔
  ∃ before f after err r1,
    fs = before ++ f :: after ∧
    Boot.succeed before r r1 ∧
    Boot.call f r1 = (Some err, r') ∧
    e = Boot.fmt_v_func f +:+ ": " +:+ err.
Proof.
  induction fs as [|f fs IH]; intros r e r'; simpl.
  - split; [done|]. intros (before & f & after & ? & ? & Hnil & _).
    by destruct before.
  - destruct (Boot.call f r) as [[err|] r1] eqn:Hcall.
    + split.
      * intros [= <- <-]. exists [], f, fs, err, r.
        split_and!; [done|constructor|done..].
      * intros (before & f' & after & err' & r2 & Hfs & Hbefore & Hfail & ->).
        destruct before as [|f0 before]; simplify_eq/=.
        -- inversion Hbefore; subst. rewrite Hcall in Hfail. by simplify_eq.
        -- inversion Hbefore as [|? ? ? r3 ? Hc Hrest]; subst.
           rewrite Hcall in Hc. discriminate.
    + rewrite IH. split.
      * intros (before & f' & after & err' & r2 & -> & Hbefore & Hfail & ->).
        exists (f :: before), f', after, err', r2.
        split_and!; [done|by econstructor|done..].
      * intros (before & f' & after & err' & r2 & Hfs & Hbefore & Hfail & ->).
        destruct before as [|f0 before]; simplify_eq/=.
        -- inversion Hbefore; subst. rewrite Hcall in Hfail. discriminate.
        -- inversion Hbefore as [|? ? ? r3 ? Hc Hrest]; subst.
           rewrite Hcall in Hc. injection Hc as <-.
           exists before, f', after, err', r2. by split_and!.
Qed.

(** X21. [runner.Run] runs the setup functions in the order of the table
    and stops at the first that fails. It returns nil exactly when all
    twelve returned nil, one after the other. It returns an error exactly
    when some function of the table failed after all those listed before it
    had returned nil: the error is that function's, prefixed with the
    function as %v prints it, the runner is as that function left it, and no
    function listed after it has run. *)
Theorem runner_Run_fail_fast r :
  (∀ r', Boot.runner_Run r = (None, r') ↔
         Boot.succeed Boot.setupFunctions r r') ∧
  (∀ e r',
     Boot.runner_Run r = (Some e, r') ↔
     ∃ before f after err r1,
       Boot.setupFunctions = before ++ f :: after ∧
       Boot.succeed before r r1 ∧
       Boot.call f r1 = (Some err, r') ∧
       e = Boot.fmt_v_func f +:+ ": " +:+ err).
Proof.
  unfold Boot.runner_Run. split.
  - intros r'. apply runSetup_None.
  - intros e r'. apply runSetup_Some.
Qed.

End BootFurther.

(** * The image requests of the API proxy *)

Section ApiProxyFurther.
Context {imports : ApiProxy.Imports}.


(** X23. The image services write the response only on success. [Get] and
    [Delete] with a nil hash return the no-hash error and do not call the
    daemon; [Get] and [List] leave the response as it was whenever they
    return an error, and fill it with what the daemon returned otherwise;
    [Delete] never writes the response and returns what the daemon
    returned. *)
Theorem image_services_response resp d :
  ApiProxy.Get None resp d = (Some ApiProxy.noHashError, resp, d) ∧
  ApiProxy.Delete None resp d = (Some ApiProxy.noHashError, resp, d) ∧
  (∀ hash e resp' d',
     ApiProxy.Get hash resp d = (Some e, resp', d') → resp' = resp) ∧
  (∀ hash resp' d',
     ApiProxy.Get hash resp d = (None, resp', d') →
     ∃ h image,
       hash = Some h ∧ ApiProxy.GetImage h d = (Ok image, d') ∧
       resp' = Some image) ∧
  (∀ hash e resp' d',
     ApiProxy.Delete hash resp d = (e, resp', d') →
     resp' = resp ∧
     ∀ h, hash = Some h → ApiProxy.DeleteImage h d = (e, d')) ∧
  (∀ listed e images d',
     ApiProxy.List listed d = (e, images, d') →
     match e with
     | Some err => images = listed ∧ ApiProxy.ListImages d = (Err err, d')
     | None => ApiProxy.ListImages d = (Ok images, d')
     end).
Proof.
  unfold ApiProxy.Get, ApiProxy.Delete, ApiProxy.List. split_and!; try done.
  - intros [h|] e resp' d'; [|by intros [= _ <- _]].
    destruct (ApiProxy.GetImage h d) as [[image|err] d1]; [done|].
    by intros [= _ <- _].
  - intros [h|] resp' d'; [|done].
    destruct (ApiProxy.GetImage h d) as [[image|err] d1] eqn:Hget; [|done].
    intros [= <- <-]. by exists h, image.
  - intros [h|] e resp' d'.
    + destruct (ApiProxy.DeleteImage h d) as [e1 d1] eqn:Hdel.
      intros [= <- <- <-]. split; [done|]. by intros ? [= <-].
    + intros [= <- <- <-]. by split.
  - intros listed e images d'.
    destruct (ApiProxy.ListImages d) as [[l|err] d1]; by intros [= <- <- <-].
Qed.

End ApiProxyFurther.

(** * The further statements on the sample host *)

Section FurtherSampleRuns.
#[local] Existing Instance Sample.handles.
#[local] Existing Instance Sample.imports.
#[local] Existing Instance Sample.templates.
#[local] Existing Instance Sample.bootImports.
#[local] Existing Instance Sample.apiImports.

Lemma Validate_fewer_required_witness :
  Validate (Sample.manager ["pid"; "net"])
    (Sample.manifest (Some (Sample.app (Sample.isolated "" "")))) = None ∧
  Validate (Sample.manager ["net"; "net"])
    (Sample.manifest (Some (Sample.app (Sample.isolated "" "")))) = None.
Proof.
  assert (Validate (Sample.manager ["pid"; "net"])
            (Sample.manifest (Some (Sample.app (Sample.isolated "" ""))))
          = None) as Haccepted by (vm_compute; reflexivity).
  split; [done|].
  apply (Validate_fewer_required (Sample.manager ["net"; "net"])
           (Sample.manager ["pid"; "net"])); [|done].
  simpl. intros ns. rewrite !elem_of_cons, elem_of_nil. tauto.
Defined.

Lemma Validate_error_first_offender_witness :
  let manager := Sample.manager ["pid"; "net"; "mnt"] in
  let imageManifest :=
    Sample.manifest (Some (Sample.app (Sample.isolated "host" ""))) in
  Validate manager imageManifest = Some (mustRequireError "net") ∧
  ∃ before ns after,
    Options.RequiredNamespaces (Manager.Options manager)
      = before ++ ns :: after ∧
    (mustRequireError "net" = internalServerError ∨
     mustRequireError "net" = mustRequireError ns).
Proof.
  intros manager imageManifest.
  assert (Validate manager imageManifest = Some (mustRequireError "net"))
    as Herror by (vm_compute; reflexivity).
  split; [done|].
  destruct (Validate_error_first_offender manager imageManifest _ Herror)
    as [[Happ _]|(app & iso & niso & before & ns & after
                  & _ & _ & _ & Hreq & _ & Hns)].
  - discriminate.
  - exists before, ns, after. split; [done|].
    destruct Hns as [[_ ->]|[_ ->]]; by auto.
Defined.

Lemma Create_supplied_name_witness :
  ValidACName_MatchString "Web Server!" = false ∧
  ∃ container manager',
    Create (Sample.manager ["net"]) "Web Server!"
      (Sample.manifest (Some (Sample.app []))) "sha512-abc" "6ba7b810"
      = (Ok container, manager') ∧
    RuntimeApp.Name <$> PodManifest.Apps (Container.pod container)
      = ["Web Server!"].
Proof.
  split; [reflexivity|].
  apply (Create_supplied_name (Sample.manager ["net"]) "Web Server!"
           (Sample.manifest (Some (Sample.app []))) "sha512-abc" "sha512-abc"
           "6ba7b810"); [done|reflexivity|reflexivity].
Defined.

Lemma Create_registers_witness :
  ∃ container manager',
    Create (Sample.manager ["net"]) "web"
      (Sample.manifest (Some (Sample.app []))) "sha512-abc" "6ba7b810"
      = (Ok container, manager') ∧
    Container manager' "6ba7b810" = Some container ∧
    Container manager' "7c9e6679" = None.
Proof.
  destruct (Create (Sample.manager ["net"]) "web"
              (Sample.manifest (Some (Sample.app []))) "sha512-abc" "6ba7b810")
    as [[container|e] manager'] eqn:Hcreate.
  - exists container, manager'. split; [done|].
    destruct (Create_registers _ _ _ _ _ _ _ Hcreate)
      as (_ & Hhere & Hother & _).
    split; [done|]. by rewrite Hother.
  - vm_compute in Hcreate. discriminate.
Defined.

Lemma Create_collision_witness :
  let manager :=
    (Create (Sample.manager ["net"]) "one"
       (Sample.manifest (Some (Sample.app []))) "sha512-abc" "6ba7b810").2 in
  size (Manager.containers manager) = 1 ∧
  ∃ container manager',
    Create manager "two" (Sample.manifest (Some (Sample.app [])))
      "sha512-def" "6ba7b810" = (Ok container, manager') ∧
    Container.imageHash container = "sha512-def" ∧
    Container manager' "6ba7b810" = Some container ∧
    size (Manager.containers manager') = 1.
Proof.
  intros manager.
  assert (size (Manager.containers manager) = 1) as Hone
    by (vm_compute; reflexivity).
  split; [done|].
  destruct (Create manager "two" (Sample.manifest (Some (Sample.app [])))
              "sha512-def" "6ba7b810")
    as [[container|e] manager'] eqn:Hcreate.
  - exists container, manager'. split; [done|].
    destruct (Create_collision _ _ _ _ _ _ _ Hcreate) as [Htaken _].
    destruct (Container manager "6ba7b810") as [old|] eqn:Hold.
    + destruct (Htaken old eq_refl) as [Hnew Hsize].
      split_and!; [|done|by rewrite Hsize].
      by apply Create_Ok_inv
        in Hcreate as (hash & n & _ & _ & _ & _ & Hhash & _).
    + vm_compute in Hold. discriminate.
  - vm_compute in Hcreate. discriminate.
Defined.

Lemma Create_then_remove_witness :
  ∃ container manager',
    Create (Sample.manager ["net"]) "web"
      (Sample.manifest (Some (Sample.app []))) "sha512-abc" "6ba7b810"
      = (Ok container, manager') ∧
    remove manager' container = Sample.manager ["net"].
Proof.
  destruct (Create (Sample.manager ["net"]) "web"
              (Sample.manifest (Some (Sample.app []))) "sha512-abc" "6ba7b810")
    as [[container|e] manager'] eqn:Hcreate.
  - exists container, manager'. split; [done|].
    by apply (Create_then_remove (Sample.manager ["net"]) "web"
                (Sample.manifest (Some (Sample.app []))) "sha512-abc"
                "6ba7b810" container manager').
  - vm_compute in Hcreate. discriminate.
Defined.

Lemma Containers_Create_remove_witness :
  ∃ container manager',
    Create (Sample.manager ["net"]) "web"
      (Sample.manifest (Some (Sample.app []))) "sha512-abc" "6ba7b810"
      = (Ok container, manager') ∧
    Containers manager' ≡ₚ [container].
Proof.
  destruct (Create (Sample.manager ["net"]) "web"
              (Sample.manifest (Some (Sample.app []))) "sha512-abc" "6ba7b810")
    as [[container|e] manager'] eqn:Hcreate.
  - exists container, manager'. split; [done|].
    destruct (Containers_Create_remove (Sample.manager ["net"]))
      as [Hadded _].
    by apply (Hadded "web" (Sample.manifest (Some (Sample.app [])))
                "sha512-abc" "6ba7b810" container manager').
  - vm_compute in Hcreate. discriminate.
Defined.

Lemma SetLog_later_containers_witness :
  ∃ container manager',
    Create (SetLog (Sample.manager ["net"]) [("host", "kurma-1")]) "web"
      (Sample.manifest (Some (Sample.app []))) "sha512-abc" "6ba7b810"
      = (Ok container, manager') ∧
    Container.log container
      = [("container", "6ba7b810"); ("host", "kurma-1")].
Proof.
  destruct (Create (SetLog (Sample.manager ["net"]) [("host", "kurma-1")])
              "web" (Sample.manifest (Some (Sample.app []))) "sha512-abc"
              "6ba7b810")
    as [[container|e] manager'] eqn:Hcreate.
  - exists container, manager'. split; [done|].
    destruct (SetLog_later_containers (Sample.manager ["net"])
                [("host", "kurma-1")]) as [_ Hlater].
    by destruct (Hlater _ _ _ _ _ _ Hcreate) as [-> _].
  - vm_compute in Hcreate. discriminate.
Defined.

Lemma random_closed_form_witness :
  ∃ s, random 3 [Byte.xff; Byte.x3e] = Some s ∧
       bytes s = [Byte.x37; Byte.x30; Byte.x30].
Proof.
  destruct (random_closed_form 3 [Byte.xff; Byte.x3e])
    as (s & Hs & Hbytes); [lia|].
  exists s. split; [done|].
  unfold random in Hs. vm_compute in Hs. injection Hs as <-. reflexivity.
Defined.


Lemma shortuuid_prefix_witness :
  FuncMap.shortuuid
    (funcsForContainer (Sample.container "6ba7b810-9dad-11d1") []) ()
  = Some "6ba7b810" ∧
  FuncMap.shortuuid (funcsForContainer (Sample.container "6ba7") []) ()
  = None.
Proof.
  split.
  - reflexivity.
  - destruct (shortuuid_prefix (Sample.container "6ba7") []) as [Hshort _].
    apply Hshort. simpl. lia.
Defined.

Lemma generateInterfaceName_unique_witness :
  generateInterfaceName "{{shortuuid}}"
    (Sample.container "6ba7b810-9dad-11d1") [Sample.interface "eth0"] []
  = Ok "6ba7b810" ∧
  generateInterfaceName "eth0"
    (Sample.container "6ba7b810-9dad-11d1") [Sample.interface "eth0"] []
  = Err (notUniqueError "eth0").
Proof.
  destruct (generateInterfaceName_unique "eth0"
              (Sample.container "6ba7b810-9dad-11d1")
              [Sample.interface "eth0"] []) as [_ Htaken].
  split; [reflexivity|].
  eapply Htaken; [reflexivity|reflexivity|]. simpl. by left.
Defined.

Lemma runner_Run_fail_fast_witness :
  let r := {| Sample.ran := []; Sample.broken := Some Boot.mountCgroups |} in
  Boot.runner_Run r =
    (Some "0x401000: exit status 1",
     {| Sample.ran :=
          [Boot.mountCgroups; Boot.configureEnvironment;
           Boot.createSystemMounts];
        Sample.broken := Some Boot.mountCgroups |}).
Proof.
  intros r.
  destruct (runner_Run_fail_fast (imports := Sample.bootImports) r)
    as [_ Hfails].
  apply Hfails.
  exists [Boot.createSystemMounts; Boot.configureEnvironment],
         Boot.mountCgroups.
  exists (drop 3 Boot.setupFunctions), "exit status 1",
         {| Sample.ran := [Boot.configureEnvironment; Boot.createSystemMounts];
            Sample.broken := Some Boot.mountCgroups |}.
  split_and!; [reflexivity| |reflexivity|reflexivity].
  do 2 (econstructor; [reflexivity|]). constructor.
Defined.


End FurtherSampleRuns.
